(** * airflowctl: virtual-environment lifecycle, installation and process supervision

    A shallow embedding of
    - [src/airflowctl/utils/install_airflow.py]  ([is_airflow_installed], [install_airflow],
      [_get_major_minor_version]);
    - [src/airflowctl/modes/virtualenv.py]  ([verify_or_create_venv],
      [create_virtualenv_with_specific_python_version], [VirtualenvMode.logs],
      [VirtualenvMode.stop], [VirtualenvMode._terminate_process_tree]);
    - [src/airflowctl/cli.py]  ([stop], [terminate_process_tree]);
    - [src/airflowctl/utils/project.py]  ([airflowctl_project_check], the
      ignore-file update of [get_settings_file_path_or_raise]).

    Python code runs in a state and exception monad [M] over a [world]: the
    files that exist, the environment variables, what the external programs
    print or return, the OS process table, and a trace of observable effects
    (subprocess invocations, deletions, printed messages). *)

From Stdlib Require Import String Ascii List ZArith Bool Lia.
Import ListNotations.
Open Scope Z_scope.
Open Scope string_scope.

(** ** Python strings (ASCII) *)

Definition ESC : ascii := ascii_of_nat 27.
Definition NL : string := String (ascii_of_nat 10) EmptyString.

(** Characters removed by [str.strip()] in the ASCII range (those for which
    [str.isspace] holds): space, \t \n \v \f \r and \x1c-\x1f. *)
Definition py_isspace (c : ascii) : bool :=
  let n := nat_of_ascii c in
  (Nat.eqb n 32 || (Nat.leb 9 n && Nat.leb n 13) || (Nat.leb 28 n && Nat.leb n 31))%bool.

Fixpoint lstrip (s : string) : string :=
  match s with
  | EmptyString => EmptyString
  | String c r => if py_isspace c then lstrip r else s
  end.

Definition rstrip (s : string) : string :=
  string_of_list_ascii (rev (list_ascii_of_string (lstrip
    (string_of_list_ascii (rev (list_ascii_of_string s)))))).

(** [str.strip()] *)
Definition py_strip (s : string) : string := rstrip (lstrip s).

(** [str.lower()] on ASCII. *)
Definition lower_char (c : ascii) : ascii :=
  let n := nat_of_ascii c in
  if (Nat.leb 65 n && Nat.leb n 90)%bool then ascii_of_nat (n + 32) else c.

Fixpoint py_lower (s : string) : string :=
  match s with
  | EmptyString => EmptyString
  | String c r => String (lower_char c) (py_lower r)
  end.

(** [needle in hay] *)
Fixpoint py_contains (needle hay : string) : bool :=
  if String.prefix needle hay then true
  else match hay with
       | EmptyString => false
       | String _ r => py_contains needle r
       end.

Definition starts_with_slash (s : string) : bool :=
  match s with String c _ => Ascii.eqb c "/"%char | EmptyString => false end.

Definition ends_with_slash (s : string) : bool :=
  match rev (list_ascii_of_string s) with c :: _ => Ascii.eqb c "/"%char | [] => false end.

(** [os.path.join(a, b)] (POSIX); also used for pathlib's [a / b]. *)
Definition os_path_join (a b : string) : string :=
  if starts_with_slash b then b
  else if (String.eqb a "" || ends_with_slash a)%bool then a ++ b
  else a ++ "/" ++ b.

(** [str.split(".")] *)
Fixpoint split_dot_acc (s : string) (cur : string) : list string :=
  match s with
  | EmptyString => [cur]
  | String c r =>
      if Ascii.eqb c "."%char then (cur :: split_dot_acc r "")%list
      else split_dot_acc r (cur ++ String c EmptyString)
  end.
Definition split_dot (s : string) : list string := split_dot_acc s "".

Definition is_digit (c : ascii) : bool :=
  (Nat.leb 48 (nat_of_ascii c) && Nat.leb (nat_of_ascii c) 57)%bool.

(** The digits of an [int] literal: a digit, then digits each optionally
    preceded by a single underscore. *)
Fixpoint digits_val (s : string) (acc : Z) : option Z :=
  match s with
  | EmptyString => Some acc
  | String c r =>
      if is_digit c then digits_val r (acc * 10 + (Z.of_nat (nat_of_ascii c) - 48))
      else if Ascii.eqb c "_"%char then
        match r with
        | String d _ => if is_digit d then digits_val r acc else None
        | EmptyString => None
        end
      else None
  end.

Definition unsigned_val (s : string) : option Z :=
  match s with
  | String c _ => if is_digit c then digits_val s 0 else None
  | EmptyString => None
  end.

(** [int(s)] for an ASCII string: optional surrounding whitespace, an
    optional sign, and decimal digits with single underscores between them
    ([None] is the [ValueError]). *)
Definition py_int (s : string) : option Z :=
  match py_strip s with
  | String c r =>
      if Ascii.eqb c "-"%char then option_map Z.opp (unsigned_val r)
      else if Ascii.eqb c "+"%char then unsigned_val r
      else unsigned_val (String c r)
  | EmptyString => None
  end.

Fixpoint dec_fuel (fuel : nat) (n : Z) (acc : string) : string :=
  match fuel with
  | O => acc
  | S f =>
      let acc' := String (ascii_of_nat (Z.to_nat (48 + n mod 10))) acc in
      if Z.ltb n 10 then acc' else dec_fuel f (n / 10) acc'
  end.

(** [f"{n}"] for an int. *)
Definition py_str_int (n : Z) : string :=
  if Z.ltb n 0 then "-" ++ dec_fuel (S (Z.to_nat (- n))) (- n) ""
  else dec_fuel (S (Z.to_nat n)) n "".

(** ** Effects *)

Inductive exc :=
| SystemExit (code : option Z)      (* raise SystemExit() *)
| TyperExit (code : Z)              (* raise typer.Exit(code) *)
| CalledProcessError
| ValueError
| NoSuchProcess
| TimeoutExpired
| AccessDenied                      (* psutil.AccessDenied *)
| OSError.                           (* e.g. FileNotFoundError from open() *)

(** [except Exception] catches everything but [SystemExit]
    ([typer.Exit] is a [RuntimeError]). *)
Definition is_Exception (e : exc) : bool :=
  match e with SystemExit _ => false | _ => true end.

Inductive event :=
| Print (msg : string)                          (* rich print / typer.echo *)
| RunVersion (exe : string)                     (* subprocess.run([exe, "version"]) *)
| Unlink (path : string)
| RunShell (cmd : string) (cwd : option string) (* subprocess.run(cmd, shell=True, check=True) *)
| Rmtree (path : string)
| PyenvInstall (ver : string)
| PyenvPrefix (ver : string)                    (* subprocess.run(["pyenv", "prefix", ver], ...) *)
| PyenvVenv (python path : string) (clear : bool) (* [python, "-m", "venv", path, "--clear"?] *)
| PipUpgrade (python : string)
| VenvCreate (path : string)                    (* venv.create(path, with_pip=True) *)
| Terminate (pid : Z)                           (* psutil.Process.terminate() *)
| ConsolePrint (line : string) (style : option string).

(** An entry of the OS process table.  [other_user]: the process belongs to
    another user, so signalling it fails with [EPERM] ([psutil.AccessDenied]);
    [gone_at_signal]: the process exits, and is reaped, after psutil has listed
    it and before it is signalled (a child that its parent stops on SIGTERM),
    or its pid is taken by a new process in between, which psutil detects from
    the creation time and reports as [NoSuchProcess] as well.  The flags fix,
    per process, how each race ends, so the process table is read once. *)
Record proc := { pid : Z; ppid : Z; ignores_sigterm : bool; other_user : bool;
                 gone_at_signal : bool }.

(** How an external command run by [subprocess.run] ends: exit status 0,
    another exit status, or not started at all ([FileNotFoundError] or
    [PermissionError] from [exec], an [OSError]). *)
Inductive run_status := Exit0 | ExitNonzero | NotStarted.

Record world := {
  fs : list string;                 (* absolute paths that exist *)
  dirs : list string;               (* the paths of [fs] that are directories one may enter *)
  cwd : string;
  environ : list (string * string);
  host_python : string;             (* INSTALLED_PYTHON_VERSION *)
  airflow_version_out : string;     (* stdout of [<venv>/bin/airflow version] *)
  shell_status : Z;                 (* exit status of the install pipeline *)
  pyenv_on_path : bool;             (* shutil.which("pyenv") *)
  pyenv_install_ok : bool;          (* exit status of [pyenv install] is 0 *)
  pyenv_prefix_out : string;        (* stdout of [pyenv prefix <ver>] *)
  cmd_status : event -> run_status; (* how the external command an event records ends *)
  read_text : string -> string;     (* file contents *)
  tail_output : string -> list string; (* lines [tail -f] yields before it closes *)
  procs : list proc;                (* OS process table *)
  trace : list event
}.

Inductive result (A : Type) := Ok (a : A) | Err (e : exc).
Arguments Ok {A} a.
Arguments Err {A} e.

Definition M (A : Type) := world -> result A * world.

Definition ret {A} (a : A) : M A := fun w => (Ok a, w).
Definition bind {A B} (m : M A) (k : A -> M B) : M B :=
  fun w => match m w with
           | (Ok a, w') => k a w'
           | (Err e, w') => (Err e, w')
           end.
Definition raise {A} (e : exc) : M A := fun w => (Err e, w).

Notation "x <- m ;; k" := (bind m (fun x => k))
  (at level 61, m at next level, right associativity).
Notation "m ;;; k" := (bind m (fun _ => k))
  (at level 61, right associativity).

(** [try: m except <e satisfying h>: handler e] *)
Definition try_except {A} (m : M A) (h : exc -> bool) (handler : exc -> M A) : M A :=
  fun w => match m w with
           | (Err e, w') => if h e then handler e w' else (Err e, w')
           | r => r
           end.

Definition gets {A} (f : world -> A) : M A := fun w => (Ok (f w), w).

Definition with_trace (w : world) (t : list event) : world :=
  {| fs := fs w; dirs := dirs w; cwd := cwd w; environ := environ w; host_python := host_python w;
     airflow_version_out := airflow_version_out w; shell_status := shell_status w;
     pyenv_on_path := pyenv_on_path w; pyenv_install_ok := pyenv_install_ok w;
     pyenv_prefix_out := pyenv_prefix_out w; cmd_status := cmd_status w; read_text := read_text w;
     tail_output := tail_output w; procs := procs w; trace := t |}.

Definition with_fs (w : world) (f : list string) : world :=
  {| fs := f; dirs := dirs w; cwd := cwd w; environ := environ w; host_python := host_python w;
     airflow_version_out := airflow_version_out w; shell_status := shell_status w;
     pyenv_on_path := pyenv_on_path w; pyenv_install_ok := pyenv_install_ok w;
     pyenv_prefix_out := pyenv_prefix_out w; cmd_status := cmd_status w; read_text := read_text w;
     tail_output := tail_output w; procs := procs w; trace := trace w |}.

Definition with_procs (w : world) (t : list proc) : world :=
  {| fs := fs w; dirs := dirs w; cwd := cwd w; environ := environ w; host_python := host_python w;
     airflow_version_out := airflow_version_out w; shell_status := shell_status w;
     pyenv_on_path := pyenv_on_path w; pyenv_install_ok := pyenv_install_ok w;
     pyenv_prefix_out := pyenv_prefix_out w; cmd_status := cmd_status w; read_text := read_text w;
     tail_output := tail_output w; procs := t; trace := trace w |}.

Definition emit (e : event) : M unit :=
  fun w => (Ok tt, with_trace w (trace w ++ [e])%list).

Definition print (msg : string) : M unit := emit (Print msg).

Definition path_exists_in (f : list string) (p : string) : bool :=
  existsb (String.eqb p) f.

(** [os.path.exists(p)] / [Path(p).exists()] for the absolute paths the code
    builds ([venv_path] is made absolute by [verify_or_create_venv]). *)
Definition path_exists (p : string) : M bool := gets (fun w => path_exists_in (fs w) p).

(** [Path(p).absolute()] *)
Definition absolute (w : world) (p : string) : string :=
  if starts_with_slash p then p else os_path_join (cwd w) p.

(** [str.split("/")] *)
Fixpoint split_slash_acc (s : string) (cur : string) : list string :=
  match s with
  | EmptyString => [cur]
  | String c r =>
      if Ascii.eqb c "/"%char then (cur :: split_slash_acc r "")%list
      else split_slash_acc r (cur ++ String c EmptyString)
  end.

(** The components the kernel walks for a path, [acc] holding the directories
    reached so far (innermost first): empty components and ["."] stay, [".."]
    goes up (no further than the root); symbolic links are not modelled. *)
Fixpoint walk_components (cs : list string) (acc : list string) : list string :=
  match cs with
  | [] => rev acc
  | c :: r =>
      if (String.eqb c "" || String.eqb c ".")%bool then walk_components r acc
      else if String.eqb c ".." then walk_components r (tl acc)
      else walk_components r (c :: acc)
  end.

Fixpoint join_components (cs : list string) : string :=
  match cs with [] => "" | c :: r => "/" ++ c ++ join_components r end.

(** The file a user-supplied path [p] names: [p] taken from the working
    directory, as [Path(p).exists()] and [chdir(p)] look it up. *)
Definition resolve (w : world) (p : string) : string :=
  match walk_components (split_slash_acc (absolute w p) "") [] with
  | [] => "/"
  | cs => join_components cs
  end.

(** [os.getenv(k)] *)
Definition getenv_in (env : list (string * string)) (k : string) : option string :=
  match find (fun kv => String.eqb (fst kv) k) env with
  | Some kv => Some (snd kv)
  | None => None
  end.
Definition getenv (k : string) : M (option string) := gets (fun w => getenv_in (environ w) k).

(** Truthiness of [str | None]. *)
Definition truthy (o : option string) : bool :=
  match o with Some s => negb (String.eqb s "") | None => false end.

(** [a or b] on [str | None]. *)
Definition py_or (a b : option string) : option string := if truthy a then a else b.

Definition unlink (p : string) : M unit :=
  fun w => (Ok tt, with_trace (with_fs w (filter (fun q => negb (String.eqb q p)) (fs w)))
                              (trace w ++ [Unlink p])%list).

(** Exit status of the CLI process for the outcome of a command. *)
Definition exit_status {A} (r : result A) : Z :=
  match r with
  | Ok _ => 0
  | Err (SystemExit None) => 0
  | Err (SystemExit (Some c)) => c
  | Err (TyperExit c) => c
  | Err _ => 1
  end.

(** ** [install_airflow.py] *)

(** [_get_major_minor_version]: [major, minor = map(int, v.split(".")[:2])];
    [None] is the [ValueError] raised by [int] or by the unpacking. *)
Definition _get_major_minor_version (python_version : string) : option string :=
  match firstn 2 (split_dot python_version) with
  | [a; b] =>
      match py_int a, py_int b with
      | Some major, Some minor => Some (py_str_int major ++ "." ++ py_str_int minor)
      | _, _ => None
      end
  | _ => None
  end.

(** The default constraints URL (the f-string of lines 103-104). *)
Definition default_constraints_url (version python_version : string) : option string :=
  match _get_major_minor_version python_version with
  | Some mm => Some ("https://raw.githubusercontent.com/apache/airflow/"
                     ++ "constraints-" ++ version ++ "/constraints-" ++ mm ++ ".txt")
  | None => None
  end.

(** [subprocess.run([venv_bin_airflow, "version"], stdout=PIPE, text=True)].stdout.
    There is no [check=True], so a non-zero exit status raises nothing and the
    [except CalledProcessError] of the source never fires; an executable that
    cannot be started raises [FileNotFoundError] or [PermissionError], which
    that handler does not catch. *)
Definition run_airflow_version (exe : string) : M string :=
  st <- gets (fun w => cmd_status w (RunVersion exe)) ;;
  match st with
  | NotStarted => raise OSError
  | _ => emit (RunVersion exe) ;;; gets airflow_version_out
  end.

Definition is_airflow_installed (venv_path airflow_version project_path : string) : M bool :=
  let venv_bin_airflow := os_path_join (os_path_join venv_path "bin") "airflow" in
  e <- path_exists venv_bin_airflow ;;
  if negb e then ret false else
  out <- run_airflow_version venv_bin_airflow ;;
  let installed_version := py_strip out in
  if String.eqb installed_version airflow_version then ret true else
  print ("[bold yellow]Apache Airflow " ++ installed_version ++ " is installed. "
         ++ "Apache Airflow " ++ airflow_version ++ " is required.[/bold yellow]") ;;;
  (* Remove airflow.db if it exists to prevent conflicts with DB migrations *)
  let airflow_db_path := os_path_join project_path "airflow.db" in
  d <- path_exists airflow_db_path ;;
  (if d then unlink airflow_db_path else ret tt) ;;;
  ret false.

(** [subprocess.run(cmd, shell=True, check=True[, cwd=...])] *)
Definition run_shell (cmd : string) (cwd : option string) : M unit :=
  emit (RunShell cmd cwd) ;;;
  st <- gets shell_status ;;
  if Z.eqb st 0 then ret tt else raise CalledProcessError.

(** [chdir(d)] succeeds ([Path("")] is [Path(".")], but [chdir("")] fails). *)
Definition can_enter (w : world) (d : string) : bool :=
  negb (String.eqb d "") && path_exists_in (dirs w) (resolve w d).

(** [subprocess.run(cmd, shell=True, check=True, cwd=d)]: the child changes
    to [d] before running the shell; when [d] is not a directory it may enter,
    [subprocess.run] raises that error ([NotADirectoryError],
    [PermissionError], an [OSError]) and no command runs. *)
Definition run_shell_in (cmd d : string) : M unit :=
  ok <- gets (fun w => can_enter w d) ;;
  if ok then run_shell cmd (Some d) else raise OSError.

(** Lines 82-108 of [install_airflow]: the shell pipeline, assembled from the
    values of [AIRFLOWCTL_CONSTRAINTS], [AIRFLOWCTL_PIP_FLAGS] and
    [AIRFLOWCTL_SKIP_CONSTRAINTS] and from whether [version] is an existing
    path.  [None] is the [ValueError] of [_get_major_minor_version], raised
    only when the default URL is needed. *)
Definition build_install_command (venv_bin_python version python_version project_path extras : string)
    (requirements : bool) (constraints_env extra_pip_flags skip : option string)
    (is_local_path : bool) : option string :=
  let upgrade_pipeline_command :=
    venv_bin_python ++ " -m pip install --upgrade pip setuptools wheel" in
  let c0 := upgrade_pipeline_command ++ " && " ++ venv_bin_python ++ " -m pip install " in
  let c1 := if requirements
            then c0 ++ " -r " ++ os_path_join project_path "requirements.txt" else c0 in
  let c2 := match extra_pip_flags with
            | Some f => if truthy extra_pip_flags then c1 ++ " " ++ f else c1
            | None => c1
            end in
  let r := if is_local_path then Some (c2 ++ " . ", constraints_env)
           else if truthy constraints_env
           then Some (c2 ++ " 'apache-airflow==" ++ version ++ extras ++ "' ", constraints_env)
           else match default_constraints_url version python_version with
                | Some u => Some (c2 ++ " 'apache-airflow==" ++ version ++ extras ++ "' ", Some u)
                | None => None
                end in
  match r with
  | None => None
  | Some (c3, constraints_url) =>
      Some (match constraints_url with
            | Some u => if (truthy constraints_url && negb (truthy skip))%bool
                        then c3 ++ " --constraint " ++ u ++ " " else c3
            | None => c3
            end)
  end.

Definition install_airflow (version venv_path python_version project_path : string)
    (extras : string) (requirements verbose : bool) : M unit :=
  inst <- is_airflow_installed venv_path version project_path ;;
  if inst then
    print ("[bold yellow]Apache Airflow " ++ version
           ++ " is already installed. Skipping installation.[/bold yellow]")
  else
  let venv_bin_python := os_path_join (os_path_join venv_path "bin") "python" in
  ok <- path_exists venv_bin_python ;;
  if negb ok then
    print ("[bold red]Virtual environment at " ++ venv_path
           ++ " does not exist or is not valid.[/bold red]") ;;;
    raise (SystemExit None)
  else
  constraints_env <- getenv "AIRFLOWCTL_CONSTRAINTS" ;;
  extra_pip_flags <- getenv "AIRFLOWCTL_PIP_FLAGS" ;;
  (* Check if version is a local path *)
  is_local_path <- gets (fun w => path_exists_in (fs w) (resolve w version)) ;;
  skip <- getenv "AIRFLOWCTL_SKIP_CONSTRAINTS" ;;
  match build_install_command venv_bin_python version python_version project_path extras
          requirements constraints_env extra_pip_flags skip is_local_path with
  | None => raise ValueError
  | Some install_command =>
      try_except
        ((if verbose then print ("Running command: [bold]" ++ install_command ++ "[/bold]")
          else ret tt) ;;;
         (if is_local_path then run_shell_in install_command version
          else run_shell install_command None) ;;;
         print ("[bold green]Apache Airflow " ++ version ++ " installed successfully![/bold green]") ;;;
         print ("Virtual environment at " ++ venv_path))
        (fun e => match e with CalledProcessError => true | _ => false end)
        (fun _ => print "[bold red]Error occurred during installation.[/bold red]" ;;;
                  raise (SystemExit None))
  end.

(** ** Runtime provisioning ([modes/virtualenv.py]) *)

Definition under (p q : string) : bool := String.prefix (p ++ "/") q.

(** [shutil.rmtree(p)] *)
Definition rmtree (p : string) : M unit :=
  fun w => (Ok tt, with_trace
                     (with_fs w (filter (fun q => negb (String.eqb q p || under p q)%bool) (fs w)))
                     (trace w ++ [Rmtree p])%list).

(** The files a fresh environment at [p] consists of. *)
Definition venv_layout (p : string) : list string :=
  [p; os_path_join (os_path_join p "bin") "python"; os_path_join (os_path_join p "bin") "pip";
   os_path_join p "pyvenv.cfg"].

(** [venv.create(p, with_pip=True)] *)
Definition venv_create (p : string) : M unit :=
  fun w => (Ok tt, with_trace (with_fs w (venv_layout p ++ fs w)%list)
                              (trace w ++ [VenvCreate p])%list).

(** [subprocess.run(argv, check=True)] for the command the event [ev] records. *)
Definition run_checked (ev : event) : M unit :=
  st <- gets (fun w => cmd_status w ev) ;;
  match st with
  | Exit0 => emit ev
  | ExitNonzero => emit ev ;;; raise CalledProcessError
  | NotStarted => raise OSError
  end.

(** [subprocess.run([python, "-m", "venv", p, "--clear"], check=True)]: the
    contents of [p] are deleted and a fresh environment is written there.
    What a failing run leaves on disk is not modelled (the files stay as
    they were). *)
Definition run_venv_clear (python p : string) : M unit :=
  st <- gets (fun w => cmd_status w (PyenvVenv python p true)) ;;
  match st with
  | Exit0 =>
      fun w => (Ok tt, with_trace
                         (with_fs w (venv_layout p ++
                                     filter (fun q => negb (String.eqb q p || under p q)%bool) (fs w))%list)
                         (trace w ++ [PyenvVenv python p true])%list)
  | ExitNonzero => emit (PyenvVenv python p true) ;;; raise CalledProcessError
  | NotStarted => raise OSError
  end.

(** [subprocess.run(["pyenv", "install", v, "--skip-existing"], check=True)] *)
Definition pyenv_install (v : string) : M unit :=
  emit (PyenvInstall v) ;;;
  ok <- gets pyenv_install_ok ;;
  if ok then ret tt else raise CalledProcessError.

Definition create_virtualenv_with_specific_python_version (venv_path python_version : string)
  : M unit :=
  venv_path <- gets (fun w => absolute w venv_path) ;;
  (* Check if pyenv is available *)
  has_pyenv <- gets pyenv_on_path ;;
  (if has_pyenv then
     print "pyenv found. Using pyenv to install and set the desired Python version." ;;;
     pyenv_install python_version
   else
     print "Install pyenv to use a specific Python version." ;;;
     raise (TyperExit 1)) ;;;
  run_checked (PyenvPrefix python_version) ;;;
  out <- gets pyenv_prefix_out ;;
  let python_ver_path := py_strip out in
  let py_venv_bin_python := os_path_join (os_path_join python_ver_path "bin") "python" in
  (* Create the virtual environment using venv *)
  run_venv_clear py_venv_bin_python venv_path ;;;
  let venv_bin_python := os_path_join (os_path_join venv_path "bin") "python" in
  (* Continue with using the virtual environment *)
  run_checked (PipUpgrade venv_bin_python) ;;;
  print ("Virtual environment created at [bold blue]" ++ venv_path
         ++ "[/bold blue] with Python version " ++ python_version).

(** [verify_or_create_venv] called with a [str] path, as [VirtualenvMode.build] does. *)
Definition verify_or_create_venv (venv_path : string) (recreate : bool) (python_version : string)
  : M string :=
  venv_path <- gets (fun w => absolute w venv_path) ;;
  e <- path_exists venv_path ;;
  (if (recreate && e)%bool then
     print ("Recreating virtual environment at [bold blue]" ++ venv_path ++ "[/bold blue]") ;;;
     rmtree venv_path
   else ret tt) ;;;
  let venv_bin_python := os_path_join (os_path_join venv_path "bin") "python" in
  e1 <- path_exists venv_path ;;
  e2 <- path_exists venv_bin_python ;;
  if (e1 && negb e2)%bool then
    print ("[bold red]Virtual environment at " ++ venv_path
           ++ " does not exist or is not valid.[/bold red]") ;;;
    raise (SystemExit None)
  else
  host <- gets host_python ;;
  (if negb (String.eqb python_version host) then
     print ("Python version (" ++ python_version
            ++ ") is different from the default Python version.") ;;;
     create_virtualenv_with_specific_python_version venv_path python_version
   else ret tt) ;;;
  e3 <- path_exists venv_path ;;
  (if negb e3 then
     venv_create venv_path ;;;
     print ("Virtual environment created at [bold blue]" ++ venv_path ++ "[/bold blue]")
   else ret tt) ;;;
  ret venv_path.

(** ** Process supervision ([VirtualenvMode.stop]) *)

(** psutil, as the code uses it.  [children_of t p]: the entries of the
    process table whose parent is [p], in table order. *)
Definition children_of (t : list proc) (p : Z) : list Z :=
  map pid (filter (fun e => Z.eqb (ppid e) p) t).

(** [Process(p).children(recursive=True)], psutil's traversal: a stack of pids
    (top at the head) and a set of visited pids; each popped pid contributes
    its direct children, which are then pushed.  (psutil's create-time filter
    against pid reuse is not modelled.) *)
Fixpoint children_walk (fuel : nat) (t : list proc) (stack seen : list Z) : list Z :=
  match fuel with
  | O => []
  | S f =>
      match stack with
      | [] => []
      | p :: rest =>
          if existsb (Z.eqb p) seen then children_walk f t rest seen
          else let cs := children_of t p in
               (cs ++ children_walk f t (rev cs ++ rest) (p :: seen))%list
      end
  end.

Definition descendants (t : list proc) (p : Z) : list Z :=
  children_walk (S (length t)) t [p] [].

Definition find_proc (t : list proc) (p : Z) : option proc :=
  find (fun e => Z.eqb (pid e) p) t.

Definition proc_present (t : list proc) (p : Z) : bool :=
  match find_proc t p with Some _ => true | None => false end.

(** [psutil.Process(p)]: it reads the process's creation time, which any user
    may read; only signalling a process needs permission. *)
Definition psutil_process (p : Z) : M unit :=
  if Z.ltb p 0 then raise ValueError else
  t <- gets procs ;;
  if proc_present t p then ret tt else raise NoSuchProcess.

(** [proc.terminate()]: SIGTERM is sent; the process exits asynchronously.
    A process gone by then raises [NoSuchProcess]; one of another user
    raises [AccessDenied]. *)
Definition terminate (p : Z) : M unit :=
  t <- gets procs ;;
  match find_proc t p with
  | None => raise NoSuchProcess
  | Some e =>
      if gone_at_signal e then raise NoSuchProcess
      else if other_user e then raise AccessDenied
      else emit (Terminate p)
  end.

(** [proc.wait(timeout=10)] after [terminate()]: a process that ignores
    SIGTERM is still there after 10 s; any other one has exited. *)
Definition wait_timeout (p : Z) : M unit :=
  fun w => match find_proc (procs w) p with
           | None => (Ok tt, w)
           | Some e => if ignores_sigterm e then (Err TimeoutExpired, w)
                       else (Ok tt, with_procs w (filter (fun e => negb (Z.eqb (pid e) p)) (procs w)))
           end.

Fixpoint for_each {A} (f : A -> M unit) (xs : list A) : M unit :=
  match xs with
  | [] => ret tt
  | x :: r => f x ;;; for_each f r
  end.

(** [VirtualenvMode._terminate_process_tree] *)
Definition _terminate_process_tree (p : Z) : M unit :=
  try_except
    (psutil_process p ;;;
     t <- gets procs ;;
     for_each terminate (descendants t p) ;;;
     terminate p ;;;
     wait_timeout p)
    (fun e => match e with NoSuchProcess => true | _ => false end)
    (fun _ => ret tt).

(** [[int(pid.strip()) for pid in lines if pid.strip()]] *)
Fixpoint parse_pids (lines : list string) : option (list Z) :=
  match lines with
  | [] => Some []
  | l :: r =>
      if String.eqb (py_strip l) "" then parse_pids r
      else match py_int l, parse_pids r with
           | Some n, Some ns => Some (n :: ns)
           | _, _ => None
           end
  end.

Definition exc_str (e : exc) : string :=
  match e with
  | SystemExit _ => "SystemExit" | TyperExit _ => "Exit" | CalledProcessError => "CalledProcessError"
  | ValueError => "ValueError" | NoSuchProcess => "NoSuchProcess" | TimeoutExpired => "TimeoutExpired"
  | AccessDenied => "AccessDenied" | OSError => "OSError"
  end.

Fixpoint repr_ints (ns : list Z) : string :=
  match ns with
  | [] => ""
  | [n] => py_str_int n
  | n :: r => py_str_int n ++ ", " ++ repr_ints r
  end.

(** [VirtualenvMode.stop]; [pid_file] is [None] when the PID-record file does
    not exist, otherwise its lines ([f.readlines()]). *)
Definition stop (pid_file : option (list string)) : M unit :=
  match pid_file with
  | None => print "No background processes found." ;;; raise (TyperExit 1)
  | Some lines =>
      match parse_pids lines with
      | None => raise ValueError
      | Some [] => print "No background processes found." ;;; raise (TyperExit 1)
      | Some process_ids =>
          try_except
            (for_each _terminate_process_tree process_ids ;;;
             print ("All background processes ([" ++ repr_ints process_ids
                    ++ "]) and their entire process trees have been stopped."))
            is_Exception
            (fun e => print ("Error stopping background processes: " ++ exc_str e) ;;;
                      raise (TyperExit 1))
      end
  end.

(** ** Log streaming ([VirtualenvMode.logs]) *)

Definition is_csi_param (c : ascii) : bool := (is_digit c || Ascii.eqb c ";"%char)%bool.

(** After ["\x1B["]: [[0-9;]*[mK]]; returns what follows the match. *)
Fixpoint csi_tail (s : string) : option string :=
  match s with
  | EmptyString => None
  | String c r =>
      if is_csi_param c then csi_tail r
      else if (Ascii.eqb c "m"%char || Ascii.eqb c "K"%char)%bool then Some r
      else None
  end.

(** [re.sub(r"\x1B\[[0-9;]*[mK]", "", s)]: scan left to right, drop each
    match, keep every other character.  Each step consumes at least one
    character, so [length s] steps suffice. *)
Fixpoint ansi_sub_fuel (fuel : nat) (s : string) : string :=
  match fuel with
  | O => s
  | S f =>
      match s with
      | EmptyString => EmptyString
      | String c r =>
          if Ascii.eqb c ESC then
            match r with
            | String b r2 =>
                if Ascii.eqb b "["%char then
                  match csi_tail r2 with
                  | Some rest => ansi_sub_fuel f rest
                  | None => String c (ansi_sub_fuel f r)
                  end
                else String c (ansi_sub_fuel f r)
            | EmptyString => String c EmptyString
            end
          else String c (ansi_sub_fuel f r)
      end
  end.

Definition ansi_sub (s : string) : string := ansi_sub_fuel (String.length s) s.

(** The body of the [while True] loop for one line read from [tail]. *)
Definition log_line_events (webserver scheduler triggerer : bool) (line : string) : list event :=
  (* Check for component-specific logs *)
  let is_webserver_log := (webserver && py_contains "webserver" (py_lower line))%bool in
  let is_scheduler_log := (scheduler && py_contains "scheduler" (py_lower line))%bool in
  let is_triggerer_log := (triggerer && py_contains "triggerer" (py_lower line))%bool in
  (* Remove ANSI color codes using regular expressions *)
  let line := ansi_sub line in
  if (is_webserver_log || is_scheduler_log || is_triggerer_log)%bool then
    if is_webserver_log then [ConsolePrint line (Some "bold cyan")]
    else if is_scheduler_log then [ConsolePrint line (Some "bold magenta")]
    else if is_triggerer_log then [ConsolePrint line (Some "bold yellow")]
    else []
  else if negb (webserver || scheduler || triggerer)%bool then [ConsolePrint line None]
  else [].

(** The [while True] loop over the lines [tail -f] yields; [""] (end of the
    pipe) breaks it. *)
Fixpoint logs_loop (webserver scheduler triggerer : bool) (lines : list string) : list event :=
  match lines with
  | [] => []
  | line :: rest =>
      if String.eqb line "" then []
      else (log_line_events webserver scheduler triggerer line
            ++ logs_loop webserver scheduler triggerer rest)%list
  end.

Definition logs (project_path : string) (webserver scheduler triggerer : bool) : M unit :=
  let background_logs_info_file := os_path_join project_path "background_logs_info.txt" in
  e <- path_exists background_logs_info_file ;;
  if negb e then print "No background logs found." ;;; raise (TyperExit 1) else
  temp_file_name <- gets (fun w => py_strip (read_text w background_logs_info_file)) ;;
  try_except
    (ok <- path_exists temp_file_name ;;
     (if ok then ret tt else raise OSError) ;;;
     emit (ConsolePrint "Displaying live background logs... (Press Ctrl+C to stop)" (Some "bold")) ;;;
     lines <- gets (fun w => tail_output w temp_file_name) ;;
     for_each emit (logs_loop webserver scheduler triggerer lines))
    is_Exception
    (fun e => print ("An error occurred: " ++ exc_str e) ;;; raise (TyperExit 1)).

(** ** Project files ([utils/project.py]) *)

(** [airflowctl_project_check] *)
Definition airflowctl_project_check (project_path : string) : M unit :=
  e <- path_exists (os_path_join project_path ".airflowctl") ;;
  if e then ret tt
  else print "Not an airflowctl project. Run 'airflowctl init' to initialize the project." ;;;
       raise (TyperExit 1).

(** The update [get_settings_file_path_or_raise] applies to the text of an
    Astro project's [.gitignore], and in the same words to its
    [.dockerignore]: the new contents written back. *)
Definition update_ignore_contents (contents : string) : string :=
  let contents := if negb (py_contains "airflow.db" contents)
                  then contents ++ NL ++ "airflow.db" else contents in
  let contents := if negb (py_contains "airflow.cfg" contents)
                  then contents ++ NL ++ "airflow.cfg" else contents in
  if negb (py_contains ".venev" contents) then contents ++ NL ++ ".venv" else contents.

(** ** The [stop] command ([cli.py]) *)

Module Cli.

(** [terminate_process_tree]: as the mode's [_terminate_process_tree],
    without the wait. *)
Definition terminate_process_tree (p : Z) : M unit :=
  try_except
    (psutil_process p ;;;
     t <- gets procs ;;
     for_each terminate (descendants t p) ;;;
     terminate p)
    (fun e => match e with NoSuchProcess => true | _ => false end)
    (fun _ => ret tt).

(** [stop(project_path)]; [pid_file] is the content of
    [.airflowctl/.background_process_ids], as for the mode's [stop]. *)
Definition stop (project_path : string) (pid_file : option (list string)) : M unit :=
  airflowctl_project_check project_path ;;;
  match pid_file with
  | None => print "No background processes found." ;;; raise (TyperExit 1)
  | Some lines =>
      match parse_pids lines with
      | None => raise ValueError
      | Some [] => print "No background processes found." ;;; raise (TyperExit 1)
      | Some process_ids =>
          try_except
            (for_each terminate_process_tree process_ids ;;;
             print "All background processes and their entire process trees have been stopped.")
            is_Exception
            (fun e => print ("Error stopping background processes: " ++ exc_str e) ;;;
                      raise (TyperExit 1))
      end
  end.

End Cli.

(** ** Predicates used by the properties *)

(** No ['.'] in [s]. *)
Definition dot_free (s : string) : bool :=
  forallb (fun c => negb (Ascii.eqb c "."%char)) (list_ascii_of_string s).

(** No character [str.strip] removes in [s]. *)
Definition no_space (s : string) : bool :=
  forallb (fun c => negb (py_isspace c)) (list_ascii_of_string s).

Definition all_digits (s : string) : bool := forallb is_digit (list_ascii_of_string s).

(** [q] is [root] or, through the [ppid] links of the table, one of its descendants. *)
Inductive in_tree (t : list proc) (root : Z) : Z -> Prop :=
| in_tree_root : in_tree t root root
| in_tree_child : forall e, In e t -> in_tree t root (ppid e) -> in_tree t root (pid e).

(** Between [w] and [w']: no process appears, events are only appended, and
    every process signalled satisfies [P]. *)
Definition signals_within (P : Z -> Prop) (w w' : world) : Prop :=
  incl (procs w') (procs w) /\
  exists suf, trace w' = (trace w ++ suf)%list /\ forall q, In (Terminate q) suf -> P q.

(** [terminate()] on [x] in table [t] sends SIGTERM: [x] is one of the
    user's processes and is still there when signalled. *)
Definition signalable (t : list proc) (x : Z) : bool :=
  match find_proc t x with
  | Some e => negb (other_user e) && negb (gone_at_signal e)
  | None => false
  end.

(** The signals [terminate_process_tree p] sends in table [t]: every
    descendant, then [p]; none when [p] is not running. *)
Definition tree_signals (t : list proc) (p : Z) : list event :=
  if proc_present t p then (map Terminate (descendants t p) ++ [Terminate p])%list else [].

(** The interpreter [create_virtualenv_with_specific_python_version] builds
    the environment with: [bin/python] under the prefix pyenv reports. *)
Definition pyenv_python (w : world) : string :=
  os_path_join (os_path_join (py_strip (pyenv_prefix_out w)) "bin") "python".

Definition pyenv_venv_events (w : world) (p v : string) : list event :=
  [Print "pyenv found. Using pyenv to install and set the desired Python version.";
   PyenvInstall v; PyenvPrefix v; PyenvVenv (pyenv_python w) p true;
   PipUpgrade (os_path_join (os_path_join p "bin") "python");
   Print ("Virtual environment created at [bold blue]" ++ p
          ++ "[/bold blue] with Python version " ++ v)].

(** A running [p] whose tree consists of the user's own processes, each still
    there when signalled; or a [p] not running. *)
Definition tree_signalable (t : list proc) (p : Z) : bool :=
  negb (proc_present t p) || forallb (signalable t) (p :: descendants t p).

(** ** Sample inputs *)

Definition is_run_shell (e : event) : bool :=
  match e with RunShell _ _ => true | _ => false end.

Definition proj : string := "/home/user/proj".
Definition venv_dir : string := "/home/user/proj/.venv".
Definition runtime_files : list string :=
  [proj; venv_dir; "/home/user/proj/.venv/bin/python"; "/home/user/proj/.venv/bin/pip";
   "/home/user/proj/.venv/pyvenv.cfg"; "/home/user/proj/.venv/bin/airflow"].

Definition sample_dirs : list string := [proj; venv_dir; "/home/user/airflow-src"].

(** A host running Python 3.11.4 with pyenv, and the project [proj]; every
    external command it runs exits with status 0. *)
Definition mk_world (f : list string) (env : list (string * string)) (out : string)
    (status : Z) : world :=
  {| fs := f; dirs := filter (fun q => existsb (String.eqb q) sample_dirs) f; cwd := proj; environ := env; host_python := "3.11.4";
     airflow_version_out := out; shell_status := status;
     pyenv_on_path := true; pyenv_install_ok := true;
     pyenv_prefix_out := "/home/user/.pyenv/versions/3.10.4" ++ NL;
     cmd_status := fun _ => Exit0; read_text := fun _ => ""; tail_output := fun _ => []; procs := []; trace := [] |}.

(** A process that ignores SIGTERM followed by an ordinary one, and a process
    tree [100 -> 101 -> 102], [100 -> 103]. *)
Definition stuck_procs : list proc :=
  [ {| pid := 100; ppid := 1; ignores_sigterm := true; other_user := false;
       gone_at_signal := false |};
    {| pid := 200; ppid := 1; ignores_sigterm := false; other_user := false;
       gone_at_signal := false |} ].
Definition tree_procs : list proc :=
  [ {| pid := 100; ppid := 1; ignores_sigterm := false; other_user := false;
       gone_at_signal := false |};
    {| pid := 101; ppid := 100; ignores_sigterm := false; other_user := false;
       gone_at_signal := false |};
    {| pid := 102; ppid := 101; ignores_sigterm := false; other_user := false;
       gone_at_signal := false |};
    {| pid := 103; ppid := 100; ignores_sigterm := false; other_user := false;
       gone_at_signal := false |} ].

(** Log lines as a colouring logger writes them: [esc_code "32m"] is
    ["\x1B[32m"]. *)
Definition esc_code (code : string) : string := String ESC ("[" ++ code).

Definition sample_log_lines : list string :=
  [ esc_code "32m" ++ "[webserver]" ++ esc_code "0m" ++ " ready" ++ NL;
    esc_code "33m" ++ "[scheduler]" ++ esc_code "0m" ++ " tick" ++ NL;
    esc_code "35m" ++ "[triggerer]" ++ esc_code "0m" ++ " run" ++ NL;
    esc_code "1;31m" ++ "[other]" ++ esc_code "0m" ++ " noise" ++ esc_code "K" ++ NL ].

Definition log_file : string := "/tmp/airflowctl_background.log".

(** A project with a running background Airflow whose log [tail -f] yields
    [lines]. *)
Definition log_world (lines : list string) : world :=
  {| fs := [proj; "/home/user/proj/background_logs_info.txt"; log_file]; dirs := [proj]; cwd := proj;
     environ := []; host_python := "3.11.4"; airflow_version_out := ""; shell_status := 0;
     pyenv_on_path := true; pyenv_install_ok := true; pyenv_prefix_out := "";
     cmd_status := fun _ => Exit0; read_text := fun _ => log_file ++ NL;
     tail_output := fun f => if String.eqb f log_file then lines else [];
     procs := []; trace := [] |}.


(** The project [proj] marked as an airflowctl project, with the process
    tree [tree_procs] running. *)
Definition marked_proj_world : world :=
  with_procs (mk_world ("/home/user/proj/.airflowctl" :: runtime_files) [] "" 0) tree_procs.
(** A project whose environment holds a stale file besides its layout. *)
Definition old_venv_files : list string :=
  [proj; venv_dir; "/home/user/proj/.venv/bin/python"; "/home/user/proj/.venv/lib/old.py";
   "/home/user/proj/dags/example.py"].
Definition pid_lines : list string := ["100" ++ NL].

(** * Properties *)

(** ** Strings and paths *)

Lemma str_append_assoc : forall a b c, ((a ++ b) ++ c) = (a ++ (b ++ c)).
Proof. induction a as [|x a IH]; intros; simpl; [reflexivity | now rewrite IH]. Qed.

Lemma append_last_neq : forall x y c d, c <> d ->
  (x ++ String c EmptyString) <> (y ++ String d EmptyString).
Proof.
  induction x as [|a x IH]; intros y c d Hcd H; destruct y as [|b y]; simpl in H.
  - inversion H; congruence.
  - inversion H as [[Ha Hy]]; destruct y; discriminate.
  - inversion H as [[Ha Hx]]; destruct x; discriminate.
  - inversion H; eapply IH; eauto.
Qed.

Lemma os_path_join_suffix : forall a b, starts_with_slash b = false ->
  exists s, os_path_join a b = (s ++ b).
Proof.
  intros a b Hb. unfold os_path_join. rewrite Hb.
  destruct (String.eqb a "" || ends_with_slash a)%bool.
  - exists a; reflexivity.
  - exists (a ++ "/"). rewrite str_append_assoc. reflexivity.
Qed.

(** The storage file and the runtime's interpreter are never the same path. *)
Lemma db_neq_python : forall p v,
  os_path_join p "airflow.db" <> os_path_join (os_path_join v "bin") "python".
Proof.
  intros p v H.
  destruct (os_path_join_suffix p "airflow.db" eq_refl) as [s1 E1].
  destruct (os_path_join_suffix (os_path_join v "bin") "python" eq_refl) as [s2 E2].
  rewrite E1, E2 in H.
  change "airflow.db" with ("airflow.d" ++ String "b"%char EmptyString) in H.
  change "python" with ("pytho" ++ String "n"%char EmptyString) in H.
  rewrite <- !str_append_assoc in H.
  eapply append_last_neq; [|exact H]. discriminate.
Qed.

Lemma path_exists_in_removed : forall l x,
  path_exists_in (filter (fun q => negb (String.eqb q x)) l) x = false.
Proof.
  induction l as [|a l IH]; intros x; simpl; [reflexivity|].
  destruct (String.eqb_spec a x) as [->|Hne]; simpl; [apply IH|].
  rewrite IH. destruct (String.eqb_spec x a); [congruence|reflexivity].
Qed.

Lemma path_exists_in_removed_other : forall l x y, y <> x ->
  path_exists_in (filter (fun q => negb (String.eqb q x)) l) y = path_exists_in l y.
Proof.
  induction l as [|a l IH]; intros x y Hyx; simpl; [reflexivity|].
  destruct (String.eqb_spec a x) as [->|Hne]; simpl.
  - rewrite IH by exact Hyx. destruct (String.eqb_spec y x); [congruence|reflexivity].
  - rewrite IH by exact Hyx. reflexivity.
Qed.

Lemma with_trace_twice : forall w t1 t2, with_trace (with_trace w t1) t2 = with_trace w t2.
Proof. reflexivity. Qed.

Lemma with_trace_same : forall w, with_trace w (trace w) = w.
Proof. destruct w; reflexivity. Qed.

(** ** [install_airflow] *)

Lemma is_airflow_installed_mismatch : forall w venv_path version project_path,
  path_exists_in (fs w) (os_path_join (os_path_join venv_path "bin") "airflow") = true ->
  cmd_status w (RunVersion (os_path_join (os_path_join venv_path "bin") "airflow")) <> NotStarted ->
  py_strip (airflow_version_out w) <> version ->
  let db := os_path_join project_path "airflow.db" in
  exists msg,
  is_airflow_installed venv_path version project_path w =
  (Ok false,
   with_trace
     (with_fs w (if path_exists_in (fs w) db
                 then filter (fun q => negb (String.eqb q db)) (fs w) else fs w))
     (trace w ++ [RunVersion (os_path_join (os_path_join venv_path "bin") "airflow"); Print msg]
        ++ (if path_exists_in (fs w) db then [Unlink db] else []))%list).
Proof.
  intros w venv_path version project_path Hbin Hrun Hver db.
  eexists.
  unfold is_airflow_installed, run_airflow_version, path_exists, print, emit, unlink,
    bind, gets, ret.
  cbn [fs trace airflow_version_out with_trace with_fs].
  rewrite Hbin. cbn [negb].
  destruct (cmd_status w _) eqn:Hst; [| |contradiction]; cbn [airflow_version_out with_trace].
  all: destruct (String.eqb_spec (py_strip (airflow_version_out w)) version) as [E|_];
    [contradiction|].
  all: fold db; cbn -[os_path_join path_exists_in].
  all: destruct (path_exists_in (fs w) db); cbn -[os_path_join path_exists_in];
    rewrite <- !app_assoc; reflexivity.
Qed.

Lemma install_airflow_invalid_runtime :
  forall w w1 version venv_path python_version project_path extras requirements verbose,
  is_airflow_installed venv_path version project_path w = (Ok false, w1) ->
  path_exists_in (fs w1) (os_path_join (os_path_join venv_path "bin") "python") = false ->
  install_airflow version venv_path python_version project_path extras requirements verbose w =
  (Err (SystemExit None),
   with_trace w1 (trace w1 ++ [Print ("[bold red]Virtual environment at " ++ venv_path
                                      ++ " does not exist or is not valid.[/bold red]")])%list).
Proof.
  intros w w1 version venv_path python_version project_path extras requirements verbose Hi Hpy.
  unfold install_airflow. unfold bind at 1. rewrite Hi.
  cbn -[os_path_join path_exists_in String.append].
  rewrite Hpy. reflexivity.
Qed.

Ltac cbn_install :=
  cbn -[os_path_join path_exists_in String.append build_install_command getenv_in resolve
        can_enter].

Lemma can_enter_with_trace : forall w t d, can_enter (with_trace w t) d = can_enter w d.
Proof. reflexivity. Qed.

Lemma resolve_with_trace : forall w t d, resolve (with_trace w t) d = resolve w d.
Proof. reflexivity. Qed.

Lemma install_airflow_runs_pipeline :
  forall w w1 version venv_path python_version project_path extras requirements verbose cmd,
  is_airflow_installed venv_path version project_path w = (Ok false, w1) ->
  path_exists_in (fs w1) (os_path_join (os_path_join venv_path "bin") "python") = true ->
  build_install_command (os_path_join (os_path_join venv_path "bin") "python") version
    python_version project_path extras requirements
    (getenv_in (environ w1) "AIRFLOWCTL_CONSTRAINTS") (getenv_in (environ w1) "AIRFLOWCTL_PIP_FLAGS")
    (getenv_in (environ w1) "AIRFLOWCTL_SKIP_CONSTRAINTS")
    (path_exists_in (fs w1) (resolve w1 version))
  = Some cmd ->
  (path_exists_in (fs w1) (resolve w1 version) = true -> can_enter w1 version = true) ->
  install_airflow version venv_path python_version project_path extras requirements verbose w =
  (if Z.eqb (shell_status w1) 0 then Ok tt else Err (SystemExit None),
   with_trace w1 (trace w1
     ++ (if verbose then [Print ("Running command: [bold]" ++ cmd ++ "[/bold]")] else [])
     ++ [RunShell cmd (if path_exists_in (fs w1) (resolve w1 version) then Some version else None)]
     ++ (if Z.eqb (shell_status w1) 0
         then [Print ("[bold green]Apache Airflow " ++ version ++ " installed successfully![/bold green]");
               Print ("Virtual environment at " ++ venv_path)]
         else [Print "[bold red]Error occurred during installation.[/bold red]"]))%list).
Proof.
  intros w w1 version venv_path python_version project_path extras requirements verbose cmd
    Hi Hpy Hcmd Hdir.
  unfold install_airflow. unfold bind at 1. rewrite Hi.
  cbn_install. rewrite Hpy. cbn_install. rewrite Hcmd.
  unfold try_except, run_shell_in, run_shell, print, emit, bind, gets, ret, raise.
  destruct (path_exists_in (fs w1) (resolve w1 version)).
  - specialize (Hdir eq_refl).
    destruct verbose, (Z.eqb (shell_status w1) 0) eqn:Hst;
      cbn_install; rewrite ?can_enter_with_trace, ?Hdir; cbn_install; rewrite ?Hst;
      cbn_install; rewrite <- ?app_assoc; reflexivity.
  - destruct verbose, (Z.eqb (shell_status w1) 0) eqn:Hst;
      cbn_install; rewrite ?Hst; cbn_install; rewrite <- ?app_assoc; reflexivity.
Qed.

Lemma install_airflow_not_a_directory :
  forall w w1 version venv_path python_version project_path extras requirements verbose cmd,
  is_airflow_installed venv_path version project_path w = (Ok false, w1) ->
  path_exists_in (fs w1) (os_path_join (os_path_join venv_path "bin") "python") = true ->
  build_install_command (os_path_join (os_path_join venv_path "bin") "python") version
    python_version project_path extras requirements
    (getenv_in (environ w1) "AIRFLOWCTL_CONSTRAINTS") (getenv_in (environ w1) "AIRFLOWCTL_PIP_FLAGS")
    (getenv_in (environ w1) "AIRFLOWCTL_SKIP_CONSTRAINTS") true
  = Some cmd ->
  path_exists_in (fs w1) (resolve w1 version) = true ->
  can_enter w1 version = false ->
  install_airflow version venv_path python_version project_path extras requirements verbose w =
  (Err OSError,
   with_trace w1 (trace w1
     ++ (if verbose then [Print ("Running command: [bold]" ++ cmd ++ "[/bold]")] else []))%list).
Proof.
  intros w w1 version venv_path python_version project_path extras requirements verbose cmd
    Hi Hpy Hcmd Hloc Hdir.
  unfold install_airflow. unfold bind at 1. rewrite Hi.
  cbn_install. rewrite Hpy. cbn_install. rewrite Hloc, Hcmd.
  unfold try_except, run_shell_in, print, emit, bind, gets, ret, raise.
  destruct verbose; cbn_install; rewrite ?can_enter_with_trace, Hdir; cbn_install;
    rewrite ?app_nil_r, ?with_trace_same; reflexivity.
Qed.

Lemma install_airflow_value_error :
  forall w w1 version venv_path python_version project_path extras requirements verbose,
  is_airflow_installed venv_path version project_path w = (Ok false, w1) ->
  path_exists_in (fs w1) (os_path_join (os_path_join venv_path "bin") "python") = true ->
  build_install_command (os_path_join (os_path_join venv_path "bin") "python") version
    python_version project_path extras requirements
    (getenv_in (environ w1) "AIRFLOWCTL_CONSTRAINTS") (getenv_in (environ w1) "AIRFLOWCTL_PIP_FLAGS")
    (getenv_in (environ w1) "AIRFLOWCTL_SKIP_CONSTRAINTS")
    (path_exists_in (fs w1) (resolve w1 version))
  = None ->
  install_airflow version venv_path python_version project_path extras requirements verbose w =
  (Err ValueError, w1).
Proof.
  intros w w1 version venv_path python_version project_path extras requirements verbose Hi Hpy Hcmd.
  unfold install_airflow. unfold bind at 1. rewrite Hi.
  cbn_install. rewrite Hpy. cbn_install. rewrite Hcmd. reflexivity.
Qed.

(** The command is missing only when the default constraints URL is needed
    and cannot be formed. *)
Lemma build_install_command_none :
  forall venv_bin_python version python_version project_path extras requirements ce ef sk loc,
  build_install_command venv_bin_python version python_version project_path extras
    requirements ce ef sk loc = None ->
  loc = false /\ truthy ce = false /\ _get_major_minor_version python_version = None.
Proof.
  intros venv_bin_python version python_version project_path extras requirements ce ef sk loc H.
  unfold build_install_command, default_constraints_url in H.
  destruct loc; [discriminate|]. destruct (truthy ce); [discriminate|].
  destruct (_get_major_minor_version python_version); [discriminate|]. tauto.
Qed.

Lemma path_exists_in_filter : forall f l x,
  path_exists_in (filter f l) x = true -> path_exists_in l x = true.
Proof.
  intros f l x. unfold path_exists_in. rewrite !existsb_exists.
  intros [y [Hy E]]. apply filter_In in Hy. exists y. tauto.
Qed.

(** C1: when [<runtime>/bin/airflow] exists, runs, and reports exactly the
    requested version, [install_airflow] runs the version query, logs that the
    version is already installed and returns: no install pipeline runs, and
    the files and every other part of the state are unchanged. *)
Theorem install_airflow_idempotent :
  forall w version venv_path python_version project_path extras requirements verbose,
  path_exists_in (fs w) (os_path_join (os_path_join venv_path "bin") "airflow") = true ->
  cmd_status w (RunVersion (os_path_join (os_path_join venv_path "bin") "airflow")) <> NotStarted ->
  py_strip (airflow_version_out w) = version ->
  install_airflow version venv_path python_version project_path extras requirements verbose w =
  (Ok tt, with_trace w (trace w ++
     [RunVersion (os_path_join (os_path_join venv_path "bin") "airflow");
      Print ("[bold yellow]Apache Airflow " ++ version
             ++ " is already installed. Skipping installation.[/bold yellow]")])%list).
Proof.
  intros w version venv_path python_version project_path extras requirements verbose
    Hbin Hrun Hver.
  unfold install_airflow, is_airflow_installed, run_airflow_version, path_exists, print, emit,
    bind, gets, ret.
  cbn [fs trace airflow_version_out with_trace].
  rewrite Hbin. cbn [negb].
  destruct (cmd_status w _); [| |contradiction]; cbn [airflow_version_out with_trace];
    rewrite Hver, String.eqb_refl; cbn; rewrite <- app_assoc; reflexivity.
Qed.

Lemma install_airflow_idempotent_witness :
  let w := mk_world runtime_files [] ("2.8.1" ++ NL) 0 in
  path_exists_in (fs w) "/home/user/proj/.venv/bin/airflow" = true /\
  install_airflow "2.8.1" venv_dir "3.10.4" proj "" true false w =
  (Ok tt, with_trace w (trace w ++
     [RunVersion "/home/user/proj/.venv/bin/airflow";
      Print "[bold yellow]Apache Airflow 2.8.1 is already installed. Skipping installation.[/bold yellow]"])%list).
Proof.
  split; [vm_compute; reflexivity|].
  apply (install_airflow_idempotent (mk_world runtime_files [] ("2.8.1" ++ NL) 0)
           "2.8.1" venv_dir "3.10.4" proj "" true false); vm_compute;
    [reflexivity | discriminate | reflexivity].
Defined.

(** C2 (counterexample): a runtime whose [bin/airflow] reports 2.7.0 but
    whose [bin/python] is missing, with 2.8.1 requested: [airflow.db] is
    deleted, but [install_airflow] then aborts with [SystemExit] and no install
    pipeline runs. *)
Lemma install_mismatch_without_interpreter_runs_no_pipeline :
  let w := mk_world [proj; venv_dir; "/home/user/proj/.venv/bin/airflow";
                     "/home/user/proj/airflow.db"] [] ("2.7.0" ++ NL) 0 in
  let '(r, w') := install_airflow "2.8.1" venv_dir "3.10.4" proj "" true false w in
  r = Err (SystemExit None) /\
  path_exists_in (fs w') "/home/user/proj/airflow.db" = false /\
  existsb is_run_shell (trace w') = false.
Proof. vm_compute. split; [reflexivity | split; reflexivity]. Qed.

(** C2 (amended): when [<runtime>/bin/airflow] exists, runs, and reports
    (after [strip()]) a version different from the requested one,
    [install_airflow] first deletes [<project>/airflow.db] if it exists, and
    the file is absent afterwards whatever happens next.  If
    [<runtime>/bin/python] exists, the install pipeline is then executed,
    provided the constraints URL can be had (the interpreter version has a
    major.minor prefix, or [AIRFLOWCTL_CONSTRAINTS] is set) and a version that
    names an existing path names a directory the pipeline can run in.  If
    [bin/python] is missing, [install_airflow] aborts with [SystemExit] without
    running it. *)
Theorem install_version_mismatch_resets_storage :
  forall w version venv_path python_version project_path extras requirements verbose,
  path_exists_in (fs w) (os_path_join (os_path_join venv_path "bin") "airflow") = true ->
  cmd_status w (RunVersion (os_path_join (os_path_join venv_path "bin") "airflow")) <> NotStarted ->
  py_strip (airflow_version_out w) <> version ->
  let db := os_path_join project_path "airflow.db" in
  let bin_python := os_path_join (os_path_join venv_path "bin") "python" in
  let res := install_airflow version venv_path python_version project_path extras
               requirements verbose w in
  path_exists_in (fs (snd res)) db = false /\
  exists msg rest,
    trace (snd res) = (trace w ++ RunVersion (os_path_join (os_path_join venv_path "bin") "airflow")
                :: Print msg :: (if path_exists_in (fs w) db then [Unlink db] else []) ++ rest)%list
    /\ (path_exists_in (fs w) bin_python = true ->
        (_get_major_minor_version python_version <> None \/
         truthy (getenv_in (environ w) "AIRFLOWCTL_CONSTRAINTS") = true) ->
        (path_exists_in (fs w) (resolve w version) = true -> can_enter w version = true) ->
        exists cmd cwd, In (RunShell cmd cwd) rest)
    /\ (path_exists_in (fs w) bin_python = false ->
        fst res = Err (SystemExit None) /\ forall cmd cwd, ~ In (RunShell cmd cwd) rest).
Proof.
  intros w version venv_path python_version project_path extras requirements verbose
    Hbin Hrun Hver db bin_python res.
  destruct (is_airflow_installed_mismatch w venv_path version project_path Hbin Hrun Hver)
    as [msg Hi]. fold db in Hi.
  set (fs1 := if path_exists_in (fs w) db
              then filter (fun q => negb (String.eqb q db)) (fs w) else fs w) in Hi.
  set (w1 := with_trace (with_fs w fs1) _) in Hi.
  assert (Hdb1 : path_exists_in (fs w1) db = false).
  { cbn [w1 fs with_trace with_fs]. unfold fs1.
    destruct (path_exists_in (fs w) db) eqn:E; [apply path_exists_in_removed | exact E]. }
  assert (Hpy1 : path_exists_in (fs w1) bin_python = path_exists_in (fs w) bin_python).
  { cbn [w1 fs with_trace with_fs]. unfold fs1.
    destruct (path_exists_in (fs w) db); [|reflexivity].
    apply path_exists_in_removed_other. intro E. apply (db_neq_python project_path venv_path).
    symmetry. exact E. }
  assert (Hloc1 : path_exists_in (fs w1) (resolve w1 version) = true ->
                  path_exists_in (fs w) (resolve w version) = true).
  { change (resolve w1 version) with (resolve w version).
    cbn [w1 fs with_trace with_fs]. unfold fs1.
    destruct (path_exists_in (fs w) db); [apply path_exists_in_filter | exact (fun H => H)]. }
  assert (Hdir1 : can_enter w1 version = can_enter w version) by reflexivity.
  assert (Hce1 : getenv_in (environ w1) "AIRFLOWCTL_CONSTRAINTS"
                 = getenv_in (environ w) "AIRFLOWCTL_CONSTRAINTS") by reflexivity.
  assert (Htr1 : trace w1 = (trace w ++ [RunVersion (os_path_join (os_path_join venv_path "bin") "airflow");
                  Print msg] ++ (if path_exists_in (fs w) db then [Unlink db] else []))%list)
    by reflexivity.
  clearbody w1.
  destruct (path_exists_in (fs w) bin_python) eqn:Hpy.
  - destruct (build_install_command bin_python version python_version project_path extras
                requirements (getenv_in (environ w1) "AIRFLOWCTL_CONSTRAINTS")
                (getenv_in (environ w1) "AIRFLOWCTL_PIP_FLAGS")
                (getenv_in (environ w1) "AIRFLOWCTL_SKIP_CONSTRAINTS")
                (path_exists_in (fs w1) (resolve w1 version))) as [cmd|] eqn:Hcmd.
    + destruct (path_exists_in (fs w1) (resolve w1 version)) eqn:Hl;
        [destruct (can_enter w1 version) eqn:Hd|].
      * unfold res. rewrite (install_airflow_runs_pipeline w w1 version venv_path python_version
                              project_path extras requirements verbose cmd Hi Hpy1)
          by (rewrite ?Hl; first [assumption | intros; assumption]).
        cbn [snd fs with_trace]. split; [exact Hdb1|].
        exists msg. eexists. split.
        -- cbn [trace with_trace]. rewrite Htr1, <- !app_assoc. reflexivity.
        -- split; [|intros; discriminate].
           intros _ _ _. eexists. eexists. apply in_or_app. right. left. reflexivity.
      * unfold res. rewrite (install_airflow_not_a_directory w w1 version venv_path python_version
                              project_path extras requirements verbose cmd Hi Hpy1 Hcmd Hl Hd).
        cbn [snd fs with_trace]. split; [exact Hdb1|].
        exists msg. eexists. split.
        -- cbn [trace with_trace]. rewrite Htr1, <- !app_assoc. reflexivity.
        -- split; [|intros; discriminate].
           intros _ _ Hdir. exfalso.
           pose proof (Hdir (Hloc1 ltac:(first [exact eq_refl | exact Hl]))). congruence.
      * unfold res. rewrite (install_airflow_runs_pipeline w w1 version venv_path python_version
                              project_path extras requirements verbose cmd Hi Hpy1)
          by (rewrite ?Hl; first [assumption | intros; discriminate]).
        cbn [snd fs with_trace]. split; [exact Hdb1|].
        exists msg. eexists. split.
        -- cbn [trace with_trace]. rewrite Htr1, <- !app_assoc. reflexivity.
        -- split; [|intros; discriminate].
           intros _ _ _. eexists. eexists. apply in_or_app. right. left. reflexivity.
    + unfold res. rewrite (install_airflow_value_error w w1 version venv_path python_version
                            project_path extras requirements verbose Hi Hpy1 Hcmd).
      cbn [snd]. split; [exact Hdb1|].
      exists msg, []. split.
      * rewrite Htr1, app_nil_r. reflexivity.
      * split; [|intros; discriminate].
        intros _ Hok _. exfalso.
        destruct (build_install_command_none _ _ _ _ _ _ _ _ _ _ Hcmd) as [_ [Hc Hm]].
        rewrite Hce1 in Hc. destruct Hok as [Hok|Hok]; congruence.
  - unfold res. rewrite (install_airflow_invalid_runtime w w1 version venv_path python_version
                          project_path extras requirements verbose Hi Hpy1).
    cbn [snd fs with_trace]. split; [exact Hdb1|].
    exists msg. eexists. split.
    + cbn [trace with_trace]. rewrite Htr1, <- !app_assoc. reflexivity.
    + split; [discriminate|]. intros _. split; [reflexivity|].
      intros cmd cwd [H|H]; [discriminate|contradiction].
Qed.

Lemma install_version_mismatch_resets_storage_witness :
  let w := mk_world runtime_files [] ("2.7.0" ++ NL) 0 in
  path_exists_in (fs w) "/home/user/proj/.venv/bin/airflow" = true /\
  cmd_status w (RunVersion "/home/user/proj/.venv/bin/airflow") <> NotStarted /\
  py_strip (airflow_version_out w) <> "2.8.1" /\
  path_exists_in (fs (snd (install_airflow "2.8.1" venv_dir "3.10.4" proj "" true false w)))
    "/home/user/proj/airflow.db" = false.
Proof.
  split; [vm_compute; reflexivity|].
  split; [vm_compute; discriminate|].
  split; [vm_compute; discriminate|].
  apply (install_version_mismatch_resets_storage (mk_world runtime_files [] ("2.7.0" ++ NL) 0)
           "2.8.1" venv_dir "3.10.4" proj "" true false);
    vm_compute; [reflexivity | discriminate | discriminate].
Defined.

(** C10: the deletion of [airflow.db] on a version mismatch (reported by a
    [bin/airflow] that runs) is done by the pre-install check and is never
    undone: when the install pipeline then exits non-zero, [install_airflow]
    aborts (raises) and the project no longer contains [airflow.db]. *)
Theorem storage_reset_not_rolled_back :
  forall w version venv_path python_version project_path extras requirements verbose,
  path_exists_in (fs w) (os_path_join (os_path_join venv_path "bin") "airflow") = true ->
  cmd_status w (RunVersion (os_path_join (os_path_join venv_path "bin") "airflow")) <> NotStarted ->
  py_strip (airflow_version_out w) <> version ->
  shell_status w <> 0 ->
  let '(r, w') := install_airflow version venv_path python_version project_path extras
                    requirements verbose w in
  (exists e, r = Err e) /\
  path_exists_in (fs w') (os_path_join project_path "airflow.db") = false.
Proof.
  intros w version venv_path python_version project_path extras requirements verbose
    Hbin Hrun Hver Hst.
  destruct (is_airflow_installed_mismatch w venv_path version project_path Hbin Hrun Hver)
    as [msg Hi].
  set (db := os_path_join project_path "airflow.db") in *.
  set (fs1 := if path_exists_in (fs w) db
              then filter (fun q => negb (String.eqb q db)) (fs w) else fs w) in Hi.
  set (w1 := with_trace (with_fs w fs1) _) in Hi.
  assert (Hdb1 : path_exists_in (fs w1) db = false).
  { cbn [w1 fs with_trace with_fs]. unfold fs1.
    destruct (path_exists_in (fs w) db) eqn:E; [apply path_exists_in_removed | exact E]. }
  assert (Hst1 : Z.eqb (shell_status w1) 0 = false).
  { cbn [w1 shell_status with_trace with_fs]. apply Z.eqb_neq. exact Hst. }
  destruct (path_exists_in (fs w1) (os_path_join (os_path_join venv_path "bin") "python"))
    eqn:Hpy.
  - destruct (build_install_command (os_path_join (os_path_join venv_path "bin") "python")
                version python_version project_path extras requirements
                (getenv_in (environ w1) "AIRFLOWCTL_CONSTRAINTS")
                (getenv_in (environ w1) "AIRFLOWCTL_PIP_FLAGS")
                (getenv_in (environ w1) "AIRFLOWCTL_SKIP_CONSTRAINTS")
                (path_exists_in (fs w1) (resolve w1 version))) as [cmd|] eqn:Hcmd.
    + destruct (path_exists_in (fs w1) (resolve w1 version) && negb (can_enter w1 version))%bool
        eqn:Hnd.
      * apply andb_prop in Hnd. destruct Hnd as [Hl Hd]. apply negb_true_iff in Hd.
        rewrite Hl in Hcmd.
        rewrite (install_airflow_not_a_directory w w1 version venv_path python_version
                   project_path extras requirements verbose cmd Hi Hpy Hcmd Hl Hd).
        split; [eexists; reflexivity | exact Hdb1].
      * rewrite (install_airflow_runs_pipeline w w1 version venv_path python_version
                   project_path extras requirements verbose cmd Hi Hpy Hcmd).
        -- rewrite Hst1. split; [eexists; reflexivity | exact Hdb1].
        -- intros Hl. rewrite Hl in Hnd. apply negb_false_iff in Hnd. exact Hnd.
    + rewrite (install_airflow_value_error w w1 version venv_path python_version
                 project_path extras requirements verbose Hi Hpy Hcmd).
      split; [eexists; reflexivity | exact Hdb1].
  - rewrite (install_airflow_invalid_runtime w w1 version venv_path python_version
               project_path extras requirements verbose Hi Hpy).
    split; [eexists; reflexivity | exact Hdb1].
Qed.

Lemma storage_reset_not_rolled_back_witness :
  let w := mk_world (runtime_files ++ ["/home/user/proj/airflow.db"])%list []
             ("2.7.0" ++ NL) 1 in
  path_exists_in (fs w) "/home/user/proj/airflow.db" = true /\
  (let '(r, w') := install_airflow "2.8.1" venv_dir "3.10.4" proj "" true false w in
   (exists e, r = Err e) /\ path_exists_in (fs w') "/home/user/proj/airflow.db" = false).
Proof.
  split; [vm_compute; reflexivity|].
  exact (storage_reset_not_rolled_back
           (mk_world (runtime_files ++ ["/home/user/proj/airflow.db"])%list [] ("2.7.0" ++ NL) 1)
           "2.8.1" venv_dir "3.10.4" proj "" true false
           ltac:(vm_compute; reflexivity) ltac:(vm_compute; discriminate)
           ltac:(vm_compute; discriminate) ltac:(vm_compute; discriminate)).
Defined.

Lemma str_append_empty : forall s, (s ++ "") = s.
Proof. induction s as [|c s IH]; simpl; [reflexivity | now rewrite IH]. Qed.

(** C8: for application version 2.8.1 and interpreter version 3.10.4 the
    default constraints URL contains [constraints-2.8.1] and
    [constraints-3.10.txt] (3.10.4 truncated to major.minor); with no
    [AIRFLOWCTL_CONSTRAINTS] override and 2.8.1 not an existing path, this URL
    is what the install command passes to [--constraint] (unless
    [AIRFLOWCTL_SKIP_CONSTRAINTS] is set). *)
Theorem constraints_url_2_8_1_py_3_10_4 :
  forall venv_bin_python project_path extras requirements ce ef sk,
  truthy ce = false ->
  exists url,
    default_constraints_url "2.8.1" "3.10.4" = Some url /\
    py_contains "constraints-2.8.1" url = true /\
    py_contains "constraints-3.10.txt" url = true /\
    (truthy sk = false ->
     exists c3, build_install_command venv_bin_python "2.8.1" "3.10.4" project_path extras
                  requirements ce ef sk false = Some (c3 ++ " --constraint " ++ url ++ " ")).
Proof.
  intros venv_bin_python project_path extras requirements ce ef sk Hce.
  eexists. split; [vm_compute; reflexivity|].
  split; [vm_compute; reflexivity|].
  split; [vm_compute; reflexivity|].
  intros Hsk. unfold build_install_command. rewrite Hce.
  cbn -[String.append os_path_join truthy default_constraints_url].
  change (default_constraints_url "2.8.1" "3.10.4")
    with (Some "https://raw.githubusercontent.com/apache/airflow/constraints-2.8.1/constraints-3.10.txt").
  cbn -[String.append os_path_join truthy]. rewrite Hsk. cbn -[String.append os_path_join].
  eexists. reflexivity.
Qed.

Lemma constraints_url_2_8_1_py_3_10_4_witness :
  truthy None = false /\ truthy None = false /\
  exists url, default_constraints_url "2.8.1" "3.10.4" = Some url /\
    py_contains "constraints-3.10.txt" url = true.
Proof.
  split; [reflexivity|]. split; [reflexivity|].
  destruct (constraints_url_2_8_1_py_3_10_4 "/v/bin/python" "/p" "" true None None None
              eq_refl) as [url [H1 [_ [H3 _]]]].
  exists url. split; [exact H1 | exact H3].
Defined.

(** C9 (counterexample): the source tree [/home/user/airflow-src] exists and
    [AIRFLOWCTL_CONSTRAINTS] is set: the pipeline runs in the source tree, yet
    its command carries [--constraint] with the override URL. *)
Lemma local_path_install_uses_constraints_override :
  let w := mk_world [proj; venv_dir; "/home/user/proj/.venv/bin/python"; "/home/user/airflow-src"]
             [("AIRFLOWCTL_CONSTRAINTS", "https://example.org/constraints.txt")] "" 0 in
  exists cmd,
    In (RunShell cmd (Some "/home/user/airflow-src"))
       (trace (snd (install_airflow "/home/user/airflow-src" venv_dir "3.10.4" proj "" true false w)))
    /\ py_contains "--constraint https://example.org/constraints.txt" cmd = true.
Proof.
  eexists. split.
  - vm_compute. left. reflexivity.
  - vm_compute. reflexivity.
Qed.

(** C9 (amended): when the application version names (from the working
    directory) an existing local directory and the install pipeline is
    reached, no default constraints URL is formed (so the interpreter version
    is never parsed); the command installs [.] from that directory as working
    directory, and carries a [--constraint]
    argument only when [AIRFLOWCTL_CONSTRAINTS] is set non-empty and
    [AIRFLOWCTL_SKIP_CONSTRAINTS] is unset or empty, the argument then being
    that override. *)
Theorem install_local_path :
  forall w w1 version venv_path python_version project_path extras requirements verbose,
  is_airflow_installed venv_path version project_path w = (Ok false, w1) ->
  path_exists_in (fs w1) (os_path_join (os_path_join venv_path "bin") "python") = true ->
  path_exists_in (fs w1) (resolve w1 version) = true ->
  can_enter w1 version = true ->
  let ce := getenv_in (environ w1) "AIRFLOWCTL_CONSTRAINTS" in
  let sk := getenv_in (environ w1) "AIRFLOWCTL_SKIP_CONSTRAINTS" in
  exists c2,
    In (RunShell ((c2 ++ " . ")
                  ++ match ce with
                     | Some u => if (truthy ce && negb (truthy sk))%bool
                                 then " --constraint " ++ u ++ " " else ""
                     | None => ""
                     end) (Some version))
       (trace (snd (install_airflow version venv_path python_version project_path extras
                      requirements verbose w))).
Proof.
  intros w w1 version venv_path python_version project_path extras requirements verbose
    Hi Hpy Hloc Hdir ce sk.
  set (bp := os_path_join (os_path_join venv_path "bin") "python") in *.
  destruct (build_install_command bp version python_version project_path extras requirements
              ce (getenv_in (environ w1) "AIRFLOWCTL_PIP_FLAGS") sk true) as [cmd|] eqn:Hcmd.
  2:{ unfold build_install_command in Hcmd. destruct ce; discriminate. }
  assert (Hcmd' : build_install_command bp version python_version project_path extras requirements
                    ce (getenv_in (environ w1) "AIRFLOWCTL_PIP_FLAGS") sk
                    (path_exists_in (fs w1) (resolve w1 version)) = Some cmd)
    by (rewrite Hloc; exact Hcmd).
  rewrite (install_airflow_runs_pipeline w w1 version venv_path python_version project_path
             extras requirements verbose cmd Hi Hpy Hcmd') by (intros; exact Hdir).
  rewrite Hloc. cbn [snd trace with_trace].
  unfold build_install_command in Hcmd. cbn -[String.append os_path_join truthy] in Hcmd.
  clearbody ce sk. clear Hcmd'.
  destruct ce as [u|]; [destruct (truthy (Some u) && negb (truthy sk))%bool|].
  all: match type of Hcmd with
       | Some ((?C ++ " . ") ++ _) = _ => exists C
       | Some (?C ++ " . ") = _ => exists C
       end.
  all: injection Hcmd as <-; rewrite ?str_append_empty;
       apply in_or_app; right; apply in_or_app; right; left; reflexivity.
Qed.

Lemma install_local_path_witness :
  let w := mk_world [proj; venv_dir; "/home/user/proj/.venv/bin/python"; "/home/user/airflow-src"]
             [] "" 0 in
  is_airflow_installed venv_dir "../airflow-src" proj w = (Ok false, w) /\
  resolve w "../airflow-src" = "/home/user/airflow-src" /\
  exists c2,
    In (RunShell ((c2 ++ " . ") ++ "") (Some "../airflow-src"))
       (trace (snd (install_airflow "../airflow-src" venv_dir "3.10.4" proj "" true false w))).
Proof.
  split; [vm_compute; reflexivity|].
  split; [vm_compute; reflexivity|].
  exact (install_local_path
           (mk_world [proj; venv_dir; "/home/user/proj/.venv/bin/python"; "/home/user/airflow-src"]
              [] "" 0)
           (mk_world [proj; venv_dir; "/home/user/proj/.venv/bin/python"; "/home/user/airflow-src"]
              [] "" 0)
           "../airflow-src" venv_dir "3.10.4" proj "" true false
           ltac:(vm_compute; reflexivity) ltac:(vm_compute; reflexivity)
           ltac:(vm_compute; reflexivity) ltac:(vm_compute; reflexivity)).
Defined.

(** ** [verify_or_create_venv] *)

Ltac cbn_venv := cbn -[os_path_join path_exists_in String.append absolute venv_layout under].

Lemma absolute_with_trace : forall w t p, absolute (with_trace w t) p = absolute w p.
Proof. reflexivity. Qed.

Lemma absolute_same_cwd : forall w w' p, cwd w' = cwd w -> absolute w' p = absolute w p.
Proof. intros w w' p H. unfold absolute. rewrite H. reflexivity. Qed.

(** [Path.absolute()] is idempotent, the working directory being absolute. *)
Lemma absolute_absolute : forall w p, starts_with_slash (cwd w) = true ->
  absolute w (absolute w p) = absolute w p.
Proof.
  intros w p Hc. unfold absolute at 2.
  destruct (starts_with_slash p) eqn:E.
  - unfold absolute. rewrite E. reflexivity.
  - unfold absolute.
    assert (Hs : starts_with_slash (os_path_join (cwd w) p) = true).
    { unfold os_path_join. rewrite E. destruct (cwd w) as [|c r]; [discriminate|].
      destruct ((String c r =? "") || ends_with_slash (String c r))%bool; exact Hc. }
    rewrite Hs, E. reflexivity.
Qed.

(** Every call either raises or returns the absolute target path, and leaves
    the working directory alone. *)
Lemma verify_or_create_venv_path : forall w venv_path recreate python_version,
  let '(r, w') := verify_or_create_venv venv_path recreate python_version w in
  cwd w' = cwd w /\ ((exists e, r = Err e) \/ r = Ok (absolute w venv_path)).
Proof.
  intros w venv_path recreate python_version.
  unfold verify_or_create_venv, create_virtualenv_with_specific_python_version, pyenv_install,
    rmtree, venv_create, run_venv_clear, run_checked, print, emit, path_exists, bind, gets, ret,
    raise.
  cbn_venv.
  repeat (first [ match goal with |- context [if ?b then _ else _] => destruct b end
                | match goal with |- context [match ?x with Exit0 => _ | _ => _ end] =>
                    destruct x end
                | progress cbn_venv ]).
  all: split; [reflexivity | first [left; eexists; reflexivity | right; reflexivity]].
Qed.

Lemma verify_valid_host : forall w venv_path python_version,
  let p := absolute w venv_path in
  path_exists_in (fs w) p = true ->
  path_exists_in (fs w) (os_path_join (os_path_join p "bin") "python") = true ->
  python_version = host_python w ->
  verify_or_create_venv venv_path false python_version w = (Ok p, w).
Proof.
  intros w venv_path python_version p Hp Hpy Hv.
  unfold verify_or_create_venv, path_exists, bind, gets, ret.
  cbn_venv. fold p. rewrite Hp, Hpy. cbn_venv. rewrite Hv, String.eqb_refl. cbn_venv.
  rewrite Hp. reflexivity.
Qed.

(** A successful call ran pyenv and the environment creation with pyenv's
    interpreter, and left [p] in place; when pyenv is there and every command
    it runs exits with status 0, the call succeeds. *)
Lemma create_virtualenv_outcome : forall w p v,
  starts_with_slash p = true ->
  let r := create_virtualenv_with_specific_python_version p v w in
  (fst r = Ok tt ->
   trace (snd r) = (trace w ++ pyenv_venv_events w p v)%list /\
   path_exists_in (fs (snd r)) p = true /\ cwd (snd r) = cwd w) /\
  (pyenv_on_path w = true -> pyenv_install_ok w = true -> (forall ev, cmd_status w ev = Exit0) ->
   fst r = Ok tt).
Proof.
  intros w p v Hs r.
  assert (Hp : forall w', absolute w' p = p) by (intros; unfold absolute; rewrite Hs; reflexivity).
  unfold r, create_virtualenv_with_specific_python_version, pyenv_install, run_venv_clear,
    run_checked, print, emit, bind, gets, ret, raise.
  rewrite Hp. cbn_venv.
  destruct (pyenv_on_path w) eqn:Hon; cbn_venv;
    [|split; [discriminate | intros; discriminate]].
  destruct (pyenv_install_ok w) eqn:Hok; cbn_venv;
    [|split; [discriminate | intros; discriminate]].
  destruct (cmd_status w (PyenvPrefix v)) eqn:H1; cbn_venv;
    try (split; [discriminate | intros _ _ Hall; rewrite Hall in H1; discriminate]).
  destruct (cmd_status w (PyenvVenv _ p true)) eqn:H2; cbn_venv;
    try (split; [discriminate | intros _ _ Hall; rewrite Hall in H2; discriminate]).
  destruct (cmd_status w (PipUpgrade _)) eqn:H3; cbn_venv;
    try (split; [discriminate | intros _ _ Hall; rewrite Hall in H3; discriminate]).
  split; [|reflexivity].
  intros _. split; [|split].
  - unfold pyenv_venv_events, pyenv_python. rewrite <- !app_assoc. reflexivity.
  - unfold venv_layout, path_exists_in. cbn [existsb app]. rewrite String.eqb_refl. reflexivity.
  - reflexivity.
Qed.

Lemma verify_valid_other : forall w venv_path python_version,
  let p := absolute w venv_path in
  starts_with_slash (cwd w) = true ->
  path_exists_in (fs w) p = true ->
  path_exists_in (fs w) (os_path_join (os_path_join p "bin") "python") = true ->
  python_version <> host_python w ->
  let w0 := with_trace w (trace w ++ [Print ("Python version (" ++ python_version
                ++ ") is different from the default Python version.")])%list in
  (forall q w', verify_or_create_venv venv_path false python_version w = (Ok q, w') ->
     q = p /\ exists msg,
     trace w' = (trace w ++ Print msg :: pyenv_venv_events w p python_version)%list) /\
  (pyenv_on_path w = true -> pyenv_install_ok w = true -> (forall ev, cmd_status w ev = Exit0) ->
   exists w', verify_or_create_venv venv_path false python_version w = (Ok p, w')).
Proof.
  intros w venv_path python_version p Hc Hp Hpy Hv w0.
  assert (Hs : starts_with_slash p = true).
  { unfold p, absolute. destruct (starts_with_slash venv_path) eqn:E; [exact E|].
    unfold os_path_join. rewrite E. destruct (cwd w) as [|c0 r0]; [discriminate|].
    destruct ((String c0 r0 =? "") || ends_with_slash (String c0 r0))%bool; exact Hc. }
  assert (Hrun : verify_or_create_venv venv_path false python_version w =
                 bind (create_virtualenv_with_specific_python_version p python_version)
                   (fun _ => e3 <- path_exists p ;;
                             (if negb e3 then
                                venv_create p ;;;
                                print ("Virtual environment created at [bold blue]" ++ p
                                       ++ "[/bold blue]")
                              else ret tt) ;;; ret p) w0).
  { unfold verify_or_create_venv, path_exists, print, emit, bind, gets, ret.
    cbn_venv. fold p. rewrite Hp, Hpy. cbn_venv.
    destruct (String.eqb_spec python_version (host_python w)) as [E|_]; [contradiction|].
    reflexivity. }
  destruct (create_virtualenv_outcome w0 p python_version Hs) as [Hok Hall].
  destruct (create_virtualenv_with_specific_python_version p python_version w0) as [r1 w1] eqn:Hcr.
  cbn [fst snd] in Hok, Hall.
  split.
  - intros q w' H. rewrite Hrun in H. unfold bind at 1 in H. rewrite Hcr in H.
    destruct r1 as [[]|e]; [|discriminate].
    destruct (Hok eq_refl) as [Ht [He _]].
    unfold path_exists, gets, bind, ret in H. rewrite He in H. cbn in H.
    injection H as <- <-. split; [reflexivity|].
    eexists. rewrite Ht. cbn [w0 trace with_trace]. rewrite <- app_assoc. reflexivity.
  - intros Hon Hins Hst.
    assert (Hr1 : r1 = Ok tt) by (apply Hall; assumption).
    subst r1. destruct (Hok eq_refl) as [_ [He _]].
    rewrite Hrun. unfold bind at 1. rewrite Hcr. unfold path_exists, gets, bind, ret. rewrite He.
    eexists. reflexivity.
Qed.

(** C3 (counterexample): a valid runtime holding an installed [bin/airflow],
    on a Python 3.11.4 host, provisioned twice for interpreter 3.10.4 with
    [recreate=false].  Both calls return the same path, but each one runs
    [python -m venv <path> --clear]: the first call already wipes
    [bin/airflow], and the second call runs the clearing creation again. *)
Lemma provision_twice_clears_runtime :
  let w := mk_world runtime_files [] "" 0 in
  let '(r1, w1) := verify_or_create_venv venv_dir false "3.10.4" w in
  let '(r2, w2) := verify_or_create_venv venv_dir false "3.10.4" w1 in
  r1 = Ok venv_dir /\ r2 = Ok venv_dir /\
  path_exists_in (fs w1) "/home/user/proj/.venv/bin/airflow" = false /\
  In (PyenvVenv "/home/user/.pyenv/versions/3.10.4/bin/python" venv_dir true)
     (skipn (length (trace w1)) (trace w2)).
Proof. vm_compute. split; [reflexivity|]. split; [reflexivity|]. split; [reflexivity|]. tauto. Qed.

(** C3 (amended): on an already-valid runtime with [recreate=false], every
    successful call returns the same absolute runtime path.  When the
    interpreter version equals the host's [INSTALLED_PYTHON_VERSION] the call
    changes nothing at all.  When it differs, every successful call has
    installed the interpreter with [pyenv install] and created the
    environment at that path again with [-m venv], run by the interpreter
    under the prefix [pyenv prefix] reports; with pyenv present and every
    command exiting with status 0 the call does succeed. *)
Theorem provision_repeat_same_path :
  forall w venv_path python_version,
  starts_with_slash (cwd w) = true ->
  let p := absolute w venv_path in
  path_exists_in (fs w) p = true ->
  path_exists_in (fs w) (os_path_join (os_path_join p "bin") "python") = true ->
  (forall w1 w2 p1 p2,
     verify_or_create_venv venv_path false python_version w = (Ok p1, w1) ->
     verify_or_create_venv venv_path false python_version w1 = (Ok p2, w2) ->
     p1 = p /\ p2 = p) /\
  (python_version = host_python w ->
     verify_or_create_venv venv_path false python_version w = (Ok p, w)) /\
  (python_version <> host_python w ->
     forall q w', verify_or_create_venv venv_path false python_version w = (Ok q, w') ->
     exists new, trace w' = (trace w ++ new)%list /\
       In (PyenvInstall python_version) new /\
       exists cl, In (PyenvVenv (pyenv_python w) p cl) new) /\
  (python_version <> host_python w -> pyenv_on_path w = true -> pyenv_install_ok w = true ->
     (forall ev, cmd_status w ev = Exit0) ->
     exists w', verify_or_create_venv venv_path false python_version w = (Ok p, w')).
Proof.
  intros w venv_path python_version Hc p Hp Hpy.
  split; [|split; [|split]].
  - intros w1 w2 p1 p2 H1 H2.
    pose proof (verify_or_create_venv_path w venv_path false python_version) as V1.
    rewrite H1 in V1. destruct V1 as [Hcwd [[e He]|He]]; [discriminate|].
    pose proof (verify_or_create_venv_path w1 venv_path false python_version) as V2.
    rewrite H2 in V2. destruct V2 as [_ [[e' He']|He']]; [discriminate|].
    injection He as ->. injection He' as ->.
    split; [reflexivity|]. apply absolute_same_cwd. exact Hcwd.
  - apply verify_valid_host; assumption.
  - intros Hv q w' H.
    destruct (verify_valid_other w venv_path python_version Hc Hp Hpy Hv) as [Hs _].
    destruct (Hs q w' H) as [_ [msg Ht]].
    exists (Print msg :: pyenv_venv_events w p python_version). split; [exact Ht|].
    split; [cbn; tauto|]. exists true. cbn; tauto.
  - intros Hv. exact (proj2 (verify_valid_other w venv_path python_version Hc Hp Hpy Hv)).
Qed.

Lemma provision_repeat_same_path_witness :
  let w := mk_world runtime_files [] "" 0 in
  starts_with_slash (cwd w) = true /\
  verify_or_create_venv venv_dir false "3.11.4" w = (Ok venv_dir, w).
Proof.
  split; [vm_compute; reflexivity|].
  destruct (provision_repeat_same_path (mk_world runtime_files [] "" 0) venv_dir "3.11.4"
              ltac:(vm_compute; reflexivity) ltac:(vm_compute; reflexivity)
              ltac:(vm_compute; reflexivity)) as [_ [H _]].
  exact (H eq_refl).
Defined.

(** C5: with [recreate=false], when the target path exists but has no
    [bin/python], provisioning reports the runtime as invalid and raises
    [SystemExit()]; the error message is its only effect (nothing is
    created, deleted or run), and the process then exits with status 0, not
    1: [SystemExit()] carries no code. *)
Theorem invalid_runtime_aborts :
  forall w venv_path python_version,
  let p := absolute w venv_path in
  path_exists_in (fs w) p = true ->
  path_exists_in (fs w) (os_path_join (os_path_join p "bin") "python") = false ->
  verify_or_create_venv venv_path false python_version w =
  (Err (SystemExit None),
   with_trace w (trace w ++ [Print ("[bold red]Virtual environment at " ++ p
                                    ++ " does not exist or is not valid.[/bold red]")])%list) /\
  exit_status (fst (verify_or_create_venv venv_path false python_version w)) = 0.
Proof.
  intros w venv_path python_version p Hp Hpy.
  assert (H : verify_or_create_venv venv_path false python_version w =
    (Err (SystemExit None),
     with_trace w (trace w ++ [Print ("[bold red]Virtual environment at " ++ p
                                      ++ " does not exist or is not valid.[/bold red]")])%list)).
  { unfold verify_or_create_venv, print, emit, path_exists, bind, gets, ret, raise.
    cbn_venv. fold p. rewrite Hp, Hpy. reflexivity. }
  rewrite H. split; reflexivity.
Qed.

Lemma invalid_runtime_aborts_witness :
  verify_or_create_venv venv_dir false "3.11.4" (mk_world [proj; venv_dir] [] "" 0) =
  (Err (SystemExit None),
   with_trace (mk_world [proj; venv_dir] [] "" 0)
     [Print ("[bold red]Virtual environment at " ++ venv_dir
             ++ " does not exist or is not valid.[/bold red]")]) /\
  exit_status (fst (verify_or_create_venv venv_dir false "3.11.4"
                      (mk_world [proj; venv_dir] [] "" 0))) = 0.
Proof.
  exact (invalid_runtime_aborts (mk_world [proj; venv_dir] [] "" 0) venv_dir "3.11.4"
           ltac:(vm_compute; reflexivity) ltac:(vm_compute; reflexivity)).
Defined.

(** ** [VirtualenvMode.stop] *)

Lemma in_pids_present : forall t x, In x (map pid t) -> proc_present t x = true.
Proof.
  unfold proc_present, find_proc. intros t x. induction t as [|e t IH]; cbn; [tauto|].
  intros [H|H].
  - subst x. rewrite Z.eqb_refl. reflexivity.
  - destruct (Z.eqb (pid e) x); [reflexivity|]. apply IH; exact H.
Qed.

Lemma children_walk_in_table : forall fuel t stack seen x,
  In x (children_walk fuel t stack seen) -> In x (map pid t).
Proof.
  induction fuel as [|f IH]; intros t stack seen x H; cbn in H; [contradiction|].
  destruct stack as [|p rest]; [contradiction|].
  destruct (existsb (Z.eqb p) seen); [eapply IH; exact H|].
  apply in_app_or in H. destruct H as [H|H]; [|eapply IH; exact H].
  unfold children_of in H. apply in_map_iff in H. destruct H as [e [<- He]].
  apply in_map. apply filter_In in He. tauto.
Qed.

Lemma descendants_present : forall t p x, In x (descendants t p) -> proc_present t x = true.
Proof. intros t p x H. apply in_pids_present. eapply children_walk_in_table. exact H. Qed.

Lemma terminate_signalable : forall w x, signalable (procs w) x = true ->
  terminate x w = (Ok tt, with_trace w (trace w ++ [Terminate x])%list).
Proof.
  intros w x H. unfold signalable in H. unfold terminate, bind, gets.
  destruct (find_proc (procs w) x) as [e|]; [|discriminate].
  destruct (other_user e), (gone_at_signal e); try discriminate. reflexivity.
Qed.

Lemma for_each_terminate_present : forall xs w,
  (forall x, In x xs -> signalable (procs w) x = true) ->
  for_each terminate xs w = (Ok tt, with_trace w (trace w ++ map Terminate xs)%list).
Proof.
  induction xs as [|x xs IH]; intros w H; cbn.
  - rewrite app_nil_r, with_trace_same. reflexivity.
  - unfold bind at 1. rewrite (terminate_signalable w x (H x (or_introl eq_refl))).
    rewrite IH.
    + cbn. rewrite <- app_assoc. reflexivity.
    + intros y Hy. apply H. right. exact Hy.
Qed.

Lemma terminate_tree_absent : forall w p, 0 <= p -> proc_present (procs w) p = false ->
  _terminate_process_tree p w = (Ok tt, w).
Proof.
  intros w p Hp Ha. unfold _terminate_process_tree, try_except, psutil_process, bind, gets, ret, raise.
  destruct (Z.ltb_spec p 0); [lia|]. rewrite Ha. reflexivity.
Qed.

Lemma terminate_tree_present : forall w p e, 0 <= p -> find_proc (procs w) p = Some e ->
  (forall x, In x (p :: descendants (procs w) p) -> signalable (procs w) x = true) ->
  let w1 := with_trace w (trace w ++ map Terminate (descendants (procs w) p) ++ [Terminate p])%list in
  _terminate_process_tree p w =
  if ignores_sigterm e then (Err TimeoutExpired, w1)
  else (Ok tt, with_procs w1 (filter (fun e => negb (Z.eqb (pid e) p)) (procs w))).
Proof.
  intros w p e Hp Hf Hsig w1.
  assert (Hpr : proc_present (procs w) p = true) by (unfold proc_present; rewrite Hf; reflexivity).
  unfold _terminate_process_tree, try_except, psutil_process, bind at 1 2 3, gets, raise.
  destruct (Z.ltb_spec p 0); [lia|]. rewrite Hpr.
  unfold bind at 1, ret.
  rewrite for_each_terminate_present by (intros x Hx; apply Hsig; right; exact Hx).
  unfold bind at 1.
  rewrite terminate_signalable by (apply (Hsig p); left; reflexivity).
  unfold wait_timeout. cbn [procs with_trace]. rewrite Hf.
  rewrite ?with_trace_twice. cbn [trace with_trace]. rewrite <- ?app_assoc. fold w1.
  destruct (ignores_sigterm e); reflexivity.
Qed.

Lemma stop_all_done : forall w lines pids w1,
  parse_pids lines = Some pids -> pids <> [] ->
  for_each _terminate_process_tree pids w = (Ok tt, w1) ->
  stop (Some lines) w =
  (Ok tt, with_trace w1 (trace w1 ++ [Print ("All background processes ([" ++ repr_ints pids
                         ++ "]) and their entire process trees have been stopped.")])%list).
Proof.
  intros w lines pids w1 Hp Hne Hf. unfold stop. rewrite Hp.
  destruct pids as [|z l]; [congruence|].
  unfold try_except, bind. rewrite Hf. reflexivity.
Qed.

Lemma stop_aborted : forall w lines pids w1 e,
  parse_pids lines = Some pids -> pids <> [] ->
  for_each _terminate_process_tree pids w = (Err e, w1) -> is_Exception e = true ->
  stop (Some lines) w =
  (Err (TyperExit 1),
   with_trace w1 (trace w1 ++ [Print ("Error stopping background processes: " ++ exc_str e)])%list).
Proof.
  intros w lines pids w1 e Hp Hne Hf He. unfold stop. rewrite Hp.
  destruct pids as [|z l]; [congruence|].
  unfold try_except, bind. rewrite Hf, He. reflexivity.
Qed.

(** C4 (counterexample): PID 100 ignores SIGTERM, so [wait(timeout=10)]
    raises [TimeoutExpired]; [stop] aborts with exit status 1 and PID 200,
    the next tracked PID, is never sent SIGTERM.  Second part: for the tree
    [100 -> 101 -> 102], [100 -> 103], psutil enumerates [101; 103; 102], so
    [101] is terminated before its own child [102]; only the tracked PID itself
    comes last. *)
Lemma stop_stuck_process_spares_rest :
  (let w := with_procs (mk_world [] [] "" 0) stuck_procs in
   let '(r, w') := stop (Some ["100" ++ NL; "200" ++ NL]) w in
   r = Err (TyperExit 1) /\ ~ In (Terminate 200) (trace w') /\ proc_present (procs w') 200 = true) /\
  trace (snd (stop (Some ["100" ++ NL]) (with_procs (mk_world [] [] "" 0) tree_procs))) =
  [Terminate 101; Terminate 103; Terminate 102; Terminate 100;
   Print "All background processes ([100]) and their entire process trees have been stopped."].
Proof.
  split; [|vm_compute; reflexivity].
  vm_compute. split; [reflexivity|]. split; [|reflexivity]. simpl; intuition congruence.
Qed.


(** C4 (amended): [stop] walks the tracked PIDs in order.  A PID with no
    running process is skipped without error and the walk continues.  Take a
    running PID whose tree consists of the user's own processes, each still
    there when it is signalled.  If it exits on SIGTERM, every descendant
    psutil enumerates is sent SIGTERM, in that order, then the PID itself,
    and the walk continues.  If it ignores SIGTERM the wait times out, the
    walk stops there, and [stop] reports the error and exits with status 1,
    the remaining PIDs untouched.  When the walk completes, [stop] prints its
    summary and returns normally; an exception that ends the walk is
    reported and [stop] exits with status 1. *)
Theorem stop_terminates_process_trees :
  (forall w p rest, 0 <= p -> proc_present (procs w) p = false ->
     for_each _terminate_process_tree (p :: rest) w = for_each _terminate_process_tree rest w) /\
  (forall w p e rest, 0 <= p -> find_proc (procs w) p = Some e ->
     forallb (signalable (procs w)) (p :: descendants (procs w) p) = true ->
     ignores_sigterm e = false ->
     for_each _terminate_process_tree (p :: rest) w =
     for_each _terminate_process_tree rest
       (with_procs
          (with_trace w (trace w ++ map Terminate (descendants (procs w) p) ++ [Terminate p])%list)
          (filter (fun e => negb (Z.eqb (pid e) p)) (procs w)))) /\
  (forall w p e rest, 0 <= p -> find_proc (procs w) p = Some e ->
     forallb (signalable (procs w)) (p :: descendants (procs w) p) = true ->
     ignores_sigterm e = true ->
     for_each _terminate_process_tree (p :: rest) w =
     (Err TimeoutExpired,
      with_trace w (trace w ++ map Terminate (descendants (procs w) p) ++ [Terminate p])%list)) /\
  (forall w lines pids w1,
     parse_pids lines = Some pids -> pids <> [] ->
     for_each _terminate_process_tree pids w = (Ok tt, w1) ->
     stop (Some lines) w =
     (Ok tt, with_trace w1 (trace w1 ++ [Print ("All background processes ([" ++ repr_ints pids
                            ++ "]) and their entire process trees have been stopped.")])%list)) /\
  (forall w lines pids w1 e,
     parse_pids lines = Some pids -> pids <> [] ->
     for_each _terminate_process_tree pids w = (Err e, w1) -> is_Exception e = true ->
     stop (Some lines) w =
     (Err (TyperExit 1),
      with_trace w1 (trace w1 ++ [Print ("Error stopping background processes: "
                                         ++ exc_str e)])%list)).
Proof.
  split; [|split; [|split; [|split]]].
  - intros w p rest Hp Ha. cbn [for_each]. unfold bind at 1.
    rewrite terminate_tree_absent by assumption. reflexivity.
  - intros w p e rest Hp Hf Hs Hi. cbn [for_each]. unfold bind at 1.
    rewrite (terminate_tree_present w p e Hp Hf), Hi; [reflexivity|].
    apply forallb_forall. exact Hs.
  - intros w p e rest Hp Hf Hs Hi. cbn [for_each]. unfold bind at 1.
    rewrite (terminate_tree_present w p e Hp Hf), Hi; [reflexivity|].
    apply forallb_forall. exact Hs.
  - exact stop_all_done.
  - exact stop_aborted.
Qed.

Lemma stop_terminates_process_trees_witness :
  let w := with_procs (mk_world [] [] "" 0) tree_procs in
  for_each _terminate_process_tree [999] w = for_each _terminate_process_tree [] w /\
  for_each _terminate_process_tree [100] w =
  for_each _terminate_process_tree []
    (with_procs (with_trace w [Terminate 101; Terminate 103; Terminate 102; Terminate 100])
                (filter (fun e => negb (Z.eqb (pid e) 100)) tree_procs)).
Proof.
  destruct stop_terminates_process_trees as [H1 [H2 _]].
  split.
  - apply H1; [lia | vm_compute; reflexivity].
  - exact (H2 (with_procs (mk_world [] [] "" 0) tree_procs) 100
             {| pid := 100; ppid := 1; ignores_sigterm := false; other_user := false;
       gone_at_signal := false |} []
             ltac:(lia) ltac:(vm_compute; reflexivity) ltac:(vm_compute; reflexivity) eq_refl).
Defined.

(** ** [VirtualenvMode.logs] *)




(** C7: streaming the four sample lines ([[webserver] ready], [[scheduler]
    tick], [[triggerer] run], [[other] noise], each with colour codes) with
    only the webserver filter emits the first line alone, stripped and styled
    bold cyan; with no filter it emits all four, stripped and unstyled.  Both
    runs first print the banner. *)
Theorem logs_sample_filtering :
  trace (snd (logs proj true false false (log_world sample_log_lines))) =
    [ConsolePrint "Displaying live background logs... (Press Ctrl+C to stop)" (Some "bold");
     ConsolePrint ("[webserver] ready" ++ NL) (Some "bold cyan")] /\
  trace (snd (logs proj false false false (log_world sample_log_lines))) =
    [ConsolePrint "Displaying live background logs... (Press Ctrl+C to stop)" (Some "bold");
     ConsolePrint ("[webserver] ready" ++ NL) None;
     ConsolePrint ("[scheduler] tick" ++ NL) None;
     ConsolePrint ("[triggerer] run" ++ NL) None;
     ConsolePrint ("[other] noise" ++ NL) None].
Proof. split; vm_compute; reflexivity. Qed.

(** * Further properties *)

(** ** [_get_major_minor_version] *)

Lemma split_dot_acc_app : forall s t cur, dot_free s = true ->
  split_dot_acc (s ++ t) cur = split_dot_acc t (cur ++ s).
Proof.
  induction s as [|c s IH]; intros t cur H; cbn in *.
  - rewrite str_append_empty. reflexivity.
  - apply andb_prop in H as [Hc Hs]. destruct (Ascii.eqb c "."%char); [discriminate|].
    rewrite IH by exact Hs. rewrite str_append_assoc. reflexivity.
Qed.

(** [_get_major_minor_version] of a version [a.b] or [a.b.rest], where [a]
    and [b] hold no dot and parse as integers [x] and [y], is ["x.y"]
    (written back as [str] does). *)
Lemma major_minor_components : forall a b rest x y,
  dot_free a = true -> dot_free b = true ->
  (rest = "" \/ exists r, rest = "." ++ r) ->
  py_int a = Some x -> py_int b = Some y ->
  _get_major_minor_version (a ++ "." ++ b ++ rest) = Some (py_str_int x ++ "." ++ py_str_int y).
Proof.
  intros a b rest x y Ha Hb Hr Hx Hy. unfold _get_major_minor_version, split_dot.
  rewrite split_dot_acc_app by exact Ha. cbn [String.append split_dot_acc Ascii.eqb].
  cbn -[split_dot_acc String.append py_int].
  rewrite split_dot_acc_app by exact Hb.
  change ("" ++ b) with b.
  destruct Hr as [->|[r ->]]; [|change ("." ++ r) with (String "."%char r)];
    cbn -[py_int py_str_int String.append]; rewrite Hx, Hy; reflexivity.
Qed.

Lemma major_minor_components_witness :
  _get_major_minor_version "3.10.4" = Some (py_str_int 3 ++ "." ++ py_str_int 10).
Proof.
  apply (major_minor_components "3" "10" ".4" 3 10);
    [reflexivity | reflexivity | right; exists "4"; reflexivity | reflexivity | reflexivity].
Defined.

(** [_get_major_minor_version] of a version without a dot fails: unpacking
    one component into [major, minor] raises [ValueError]. *)
Lemma major_minor_no_dot : forall s, dot_free s = true -> _get_major_minor_version s = None.
Proof.
  intros s H. unfold _get_major_minor_version, split_dot.
  rewrite <- (str_append_empty s), split_dot_acc_app by exact H. reflexivity.
Qed.

Lemma major_minor_no_dot_witness : _get_major_minor_version "3" = None.
Proof. apply (major_minor_no_dot "3"). reflexivity. Defined.

(** ** Reading back the process-id file *)

Lemma list_ascii_of_string_app : forall s t,
  list_ascii_of_string (s ++ t) = (list_ascii_of_string s ++ list_ascii_of_string t)%list.
Proof. induction s as [|c s IH]; intros t; cbn; [reflexivity | rewrite IH; reflexivity]. Qed.

Lemma lstrip_no_space_head : forall l, forallb (fun c => negb (py_isspace c)) l = true ->
  lstrip (string_of_list_ascii l) = string_of_list_ascii l.
Proof.
  intros [|c l] H; cbn in *; [reflexivity|].
  apply andb_prop in H as [Hc _]. destruct (py_isspace c); [discriminate | reflexivity].
Qed.

Lemma forallb_rev : forall {A} (f : A -> bool) l, forallb f (rev l) = forallb f l.
Proof.
  intros A f l. induction l as [|x l IH]; cbn; [reflexivity|].
  rewrite forallb_app, IH. cbn. rewrite andb_true_r, andb_comm. reflexivity.
Qed.

Lemma rstrip_no_space : forall s, no_space s = true -> rstrip s = s.
Proof.
  intros s H. unfold rstrip.
  rewrite lstrip_no_space_head by (rewrite forallb_rev; exact H).
  rewrite list_ascii_of_string_of_list_ascii, rev_involutive, string_of_list_ascii_of_string.
  reflexivity.
Qed.

Lemma py_strip_no_space : forall s, no_space s = true -> py_strip s = s.
Proof.
  intros s H. unfold py_strip.
  assert (Hl : lstrip s = s).
  { destruct s as [|c r]; [reflexivity|]. cbn in H |- *. apply andb_prop in H as [Hc _].
    destruct (py_isspace c); [discriminate | reflexivity]. }
  rewrite Hl. apply rstrip_no_space. exact H.
Qed.

Lemma rstrip_trailing_space : forall s c, py_isspace c = true ->
  rstrip (s ++ String c EmptyString) = rstrip s.
Proof.
  intros s c Hc. unfold rstrip. rewrite list_ascii_of_string_app. cbn [list_ascii_of_string].
  rewrite rev_app_distr. cbn [rev app string_of_list_ascii lstrip]. rewrite Hc. reflexivity.
Qed.

Lemma digit_not_space : forall c, is_digit c = true -> py_isspace c = false.
Proof.
  intros c H. unfold is_digit, py_isspace in *. apply andb_prop in H as [H1 H2].
  apply Nat.leb_le in H1. apply Nat.leb_le in H2.
  destruct (Nat.eqb_spec (nat_of_ascii c) 32); [lia|].
  destruct (Nat.leb_spec 9 (nat_of_ascii c)), (Nat.leb_spec (nat_of_ascii c) 13),
           (Nat.leb_spec 28 (nat_of_ascii c)), (Nat.leb_spec (nat_of_ascii c) 31); cbn; lia.
Qed.

Lemma all_digits_no_space : forall s, all_digits s = true -> no_space s = true.
Proof.
  intros s. unfold all_digits, no_space. induction (list_ascii_of_string s) as [|c l IH]; cbn; [auto|].
  intros H. apply andb_prop in H as [Hc Hl]. rewrite digit_not_space by exact Hc. cbn. auto.
Qed.

Lemma digit_char : forall d, 0 <= d < 10 ->
  is_digit (ascii_of_nat (Z.to_nat (48 + d))) = true /\
  Z.of_nat (nat_of_ascii (ascii_of_nat (Z.to_nat (48 + d)))) - 48 = d.
Proof.
  intros d Hd.
  assert (Hm : Z.of_nat (Z.to_nat d) = d) by (apply Z2Nat.id; lia).
  rewrite Z2Nat.inj_add by lia. change (Z.to_nat 48) with 48%nat.
  set (m := Z.to_nat d) in *. clearbody m. subst d.
  unfold is_digit. rewrite !nat_ascii_embedding by lia.
  split; [apply andb_true_intro; split; apply Nat.leb_le; lia | lia].
Qed.

Lemma dec_fuel_spec : forall f n acc, 0 <= n -> (Z.to_nat n < f)%nat ->
  exists c r, dec_fuel f n acc = String c r /\ all_digits (String c r) = all_digits acc /\
  forall a, exists k : nat, digits_val (dec_fuel f n acc) a = digits_val acc (a * 10 ^ Z.of_nat k + n).
Proof.
  induction f as [|f IH]; intros n acc Hn Hf; [lia|].
  cbn [dec_fuel].
  destruct (digit_char (n mod 10) ltac:(apply Z.mod_pos_bound; lia)) as [Hd Hv].
  destruct (Z.ltb_spec n 10).
  - do 2 eexists. split; [reflexivity|]. split.
    + unfold all_digits. cbn [list_ascii_of_string forallb]. rewrite Hd. reflexivity.
    + intros a. exists 1%nat. cbn [digits_val]. rewrite Hd, Hv.
      rewrite Z.mod_small by lia. f_equal; lia.
  - destruct (IH (n / 10) (String (ascii_of_nat (Z.to_nat (48 + n mod 10))) acc))
      as [c [r [He [Hall Hval]]]].
    + apply Z.div_pos; lia.
    + assert (n / 10 < n) by (apply Z.div_lt; lia). lia.
    + exists c, r. split; [exact He|]. split.
      * rewrite Hall. unfold all_digits. cbn [list_ascii_of_string forallb]. rewrite Hd. reflexivity.
      * intros a. destruct (Hval a) as [k Hk]. exists (k + 1)%nat. rewrite Hk. cbn [digits_val].
        rewrite Hd, Hv. f_equal.
        rewrite Nat2Z.inj_add, Z.pow_add_r by lia. rewrite (Z.div_mod n 10) at 3 by lia. lia.
Qed.

Lemma py_str_int_spec : forall n, 0 <= n ->
  exists c r, py_str_int n = String c r /\ all_digits (String c r) = true /\
  digits_val (py_str_int n) 0 = Some n.
Proof.
  intros n Hn. unfold py_str_int. destruct (Z.ltb_spec n 0); [lia|].
  destruct (dec_fuel_spec (S (Z.to_nat n)) n "" Hn ltac:(lia)) as [c [r [He [Ha Hv]]]].
  exists c, r. split; [exact He|]. split; [exact Ha|].
  destruct (Hv 0) as [k Hk]. rewrite Hk. reflexivity.
Qed.

Lemma digit_not_sign : forall c, is_digit c = true ->
  Ascii.eqb c "-"%char = false /\ Ascii.eqb c "+"%char = false.
Proof.
  intros c H. split.
  - destruct (Ascii.eqb_spec c "-"%char) as [->|]; [discriminate | reflexivity].
  - destruct (Ascii.eqb_spec c "+"%char) as [->|]; [discriminate | reflexivity].
Qed.

Lemma py_int_py_str_int : forall n, 0 <= n -> py_int (py_str_int n) = Some n.
Proof.
  intros n Hn. destruct (py_str_int_spec n Hn) as [c [r [He [Ha Hv]]]].
  unfold py_int. rewrite py_strip_no_space by (rewrite He; apply all_digits_no_space; exact Ha).
  rewrite He in *. unfold all_digits in Ha. cbn [list_ascii_of_string forallb] in Ha.
  apply andb_prop in Ha as [Hc _]. destruct (digit_not_sign c Hc) as [Hm Hp].
  rewrite Hm, Hp. cbn [unsigned_val]. rewrite Hc. exact Hv.
Qed.

Lemma py_int_py_str_int_nl : forall n, 0 <= n -> py_int (py_str_int n ++ NL) = Some n.
Proof.
  intros n Hn. destruct (py_str_int_spec n Hn) as [c [r [He [Ha Hv]]]].
  assert (Hs : py_strip (py_str_int n ++ NL) = py_str_int n).
  { unfold py_strip. rewrite He. cbn [String.append lstrip].
    assert (Hc : py_isspace c = false).
    { apply digit_not_space. unfold all_digits in Ha. cbn in Ha. apply andb_prop in Ha. tauto. }
    rewrite Hc. change (String c (r ++ NL)) with (String c r ++ String (ascii_of_nat 10) EmptyString).
    rewrite rstrip_trailing_space by reflexivity. apply rstrip_no_space.
    apply all_digits_no_space. exact Ha. }
  unfold py_int. rewrite Hs. rewrite He in *. unfold all_digits in Ha.
  cbn [list_ascii_of_string forallb] in Ha.
  apply andb_prop in Ha as [Hc _]. destruct (digit_not_sign c Hc) as [Hm Hp].
  rewrite Hm, Hp. cbn [unsigned_val]. rewrite Hc. exact Hv.
Qed.

Lemma parse_pids_skips_blank : forall lines,
  parse_pids lines = parse_pids (filter (fun l => negb (String.eqb (py_strip l) "")) lines).
Proof.
  induction lines as [|l r IH]; cbn; [reflexivity|].
  destruct (String.eqb (py_strip l) "") eqn:E; cbn; [exact IH|]. rewrite E, <- IH. reflexivity.
Qed.

(** Writing non-negative pids one per line (the pid then a newline, as
    [echo $! > file] does), after any blank lines, and reading them back as
    [stop] does ([int(pid.strip())] over the non-blank lines) gives the same
    pids in order. *)
Theorem parse_pids_round_trip : forall ns blanks,
  Forall (fun n => 0 <= n) ns ->
  Forall (fun l => py_strip l = "") blanks ->
  parse_pids (blanks ++ map (fun n => py_str_int n ++ NL) ns) = Some ns.
Proof.
  intros ns blanks Hns Hb.
  rewrite parse_pids_skips_blank, filter_app.
  assert (Hf : filter (fun l => negb (String.eqb (py_strip l) "")) blanks = []).
  { induction Hb as [|l bs Hl _ IH]; cbn; [reflexivity|]. rewrite Hl. exact IH. }
  rewrite Hf. cbn [app]. rewrite <- parse_pids_skips_blank.
  induction Hns as [|n ns Hn _ IH]; cbn [map parse_pids]; [reflexivity|].
  destruct (String.eqb_spec (py_strip (py_str_int n ++ NL)) "") as [e|ne].
  - exfalso. pose proof (py_int_py_str_int_nl n Hn) as H.
    unfold py_int in H. rewrite e in H. discriminate.
  - rewrite py_int_py_str_int_nl, IH by exact Hn. reflexivity.
Qed.

Lemma parse_pids_round_trip_witness :
  parse_pids ([NL] ++ map (fun n => py_str_int n ++ NL) [100; 200]) = Some [100; 200].
Proof.
  apply (parse_pids_round_trip [100; 200] [NL]).
  - constructor; [lia | constructor; [lia | constructor]].
  - constructor; [vm_compute; reflexivity | constructor].
Defined.

(** ** What [VirtualenvMode.stop] may signal *)

Lemma in_tree_incl : forall t t' r q, incl t t' -> in_tree t r q -> in_tree t' r q.
Proof.
  intros t t' r q Hi H. induction H as [|e He Hp IH].
  - apply in_tree_root.
  - apply in_tree_child; [apply Hi; exact He | exact IH].
Qed.

Lemma children_walk_sound : forall fuel t root stack seen x,
  (forall s, In s stack -> in_tree t root s) ->
  In x (children_walk fuel t stack seen) -> in_tree t root x.
Proof.
  induction fuel as [|f IH]; intros t root stack seen x Hs H; cbn in H; [contradiction|].
  destruct stack as [|p rest]; [contradiction|].
  assert (Hc : forall y, In y (children_of t p) -> in_tree t root y).
  { intros y Hy. unfold children_of in Hy. apply in_map_iff in Hy as [e [<- He]].
    apply filter_In in He as [He Hpp]. apply Z.eqb_eq in Hpp.
    apply in_tree_child; [exact He|]. rewrite Hpp. apply Hs. left. reflexivity. }
  destruct (existsb (Z.eqb p) seen).
  - eapply IH; [|exact H]. intros s Hs'. apply Hs. right. exact Hs'.
  - apply in_app_or in H as [H|H]; [apply Hc; exact H|].
    eapply IH; [|exact H]. intros s Hs'. apply in_app_or in Hs' as [Hs'|Hs'].
    + apply Hc. apply in_rev. exact Hs'.
    + apply Hs. right. exact Hs'.
Qed.

Lemma descendants_in_tree : forall t p x, In x (descendants t p) -> in_tree t p x.
Proof.
  intros t p x H. eapply children_walk_sound; [|exact H].
  intros s [<-|[]]. apply in_tree_root.
Qed.

Lemma signals_within_refl : forall P w, signals_within P w w.
Proof.
  intros P w. split; [intros x Hx; exact Hx|]. exists []. rewrite app_nil_r. split; [reflexivity|].
  intros q [].
Qed.

Lemma signals_within_trans : forall P w1 w2 w3,
  signals_within P w1 w2 -> signals_within P w2 w3 -> signals_within P w1 w3.
Proof.
  intros P w1 w2 w3 [I1 [s1 [T1 H1]]] [I2 [s2 [T2 H2]]]. split.
  - intros x Hx. apply I1, I2, Hx.
  - exists (s1 ++ s2)%list. rewrite T2, T1, app_assoc. split; [reflexivity|].
    intros q Hq. apply in_app_or in Hq as [Hq|Hq]; [apply H1 | apply H2]; exact Hq.
Qed.

Lemma signals_within_weaken : forall (P Q : Z -> Prop) w w',
  (forall q, P q -> Q q) -> signals_within P w w' -> signals_within Q w w'.
Proof.
  intros P Q w w' HPQ [I [s [T H]]]. split; [exact I|]. exists s. split; [exact T|].
  intros q Hq. apply HPQ, H, Hq.
Qed.

Lemma emit_print_within : forall P msg w r w', print msg w = (r, w') -> signals_within P w w'.
Proof.
  intros P msg w r w' H. unfold print, emit in H. injection H as <- <-.
  split; [intros x Hx; exact Hx|]. exists [Print msg]. split; [reflexivity|].
  intros q [Hq|[]]. discriminate.
Qed.

Lemma terminate_within : forall (P : Z -> Prop) x w r w',
  P x -> terminate x w = (r, w') -> signals_within P w w'.
Proof.
  intros P x w r w' Hx H. unfold terminate, bind, gets, emit, raise in H.
  destruct (find_proc (procs w) x) as [e|];
    [destruct (gone_at_signal e); [|destruct (other_user e)]|]; injection H as <- <-;
    try apply signals_within_refl.
  split; [intros y Hy; exact Hy|]. exists [Terminate x]. split; [reflexivity|].
  intros q [Hq|[]]. injection Hq as <-. exact Hx.
Qed.

Lemma for_each_within : forall {A} (P : Z -> Prop) (f : A -> M unit) xs,
  (forall x w r w', In x xs -> f x w = (r, w') -> signals_within P w w') ->
  forall w r w', for_each f xs w = (r, w') -> signals_within P w w'.
Proof.
  intros A P f xs Hf. induction xs as [|x xs IH]; intros w r w' H.
  - cbn in H. injection H as <- <-. apply signals_within_refl.
  - cbn [for_each] in H. unfold bind in H.
    destruct (f x w) as [[u|e] w1] eqn:E.
    + eapply signals_within_trans; [eapply Hf; [left; reflexivity | exact E]|].
      eapply IH; [|exact H]. intros y w2 r2 w3 Hy. apply Hf. right. exact Hy.
    + injection H as <- <-. eapply Hf; [left; reflexivity | exact E].
Qed.

Lemma wait_timeout_within : forall P x w r w', wait_timeout x w = (r, w') -> signals_within P w w'.
Proof.
  intros P x w r w' H. unfold wait_timeout in H.
  destruct (find_proc (procs w) x) as [e|]; [destruct (ignores_sigterm e)|];
    injection H as <- <-; try apply signals_within_refl.
  split.
  - intros y Hy. cbn in Hy. apply filter_In in Hy. tauto.
  - exists []. rewrite app_nil_r. split; [reflexivity | intros q []].
Qed.

Lemma terminate_process_tree_within : forall p w r w',
  _terminate_process_tree p w = (r, w') -> signals_within (in_tree (procs w) p) w w'.
Proof.
  intros p w r w' H.
  unfold _terminate_process_tree, try_except, psutil_process, bind, gets, ret, raise in H.
  destruct (Z.ltb p 0); [cbn in H; injection H as <- <-; apply signals_within_refl|].
  destruct (proc_present (procs w) p); [|cbn in H; injection H as <- <-; apply signals_within_refl].
  destruct (for_each terminate (descendants (procs w) p) w) as [[u1|e1] w1] eqn:E1;
  assert (S1 : signals_within (in_tree (procs w) p) w w1)
    by (eapply (for_each_within _ terminate (descendants (procs w) p)); [|exact E1]; intros x w2 r2 w3 Hx;
        apply terminate_within; apply descendants_in_tree; exact Hx).
  2:{ cbn in H. destruct (match e1 with NoSuchProcess => true | _ => false end);
      injection H as <- <-; exact S1. }
  destruct (terminate p w1) as [[u2|e2] w2] eqn:E2;
  assert (S2 : signals_within (in_tree (procs w) p) w1 w2)
    by (eapply terminate_within; [apply in_tree_root | exact E2]).
  2:{ cbn in H. destruct (match e2 with NoSuchProcess => true | _ => false end);
      injection H as <- <-; exact (signals_within_trans _ _ _ _ S1 S2). }
  destruct (wait_timeout p w2) as [[u3|e3] w3] eqn:E3;
  assert (S3 : signals_within (in_tree (procs w) p) w2 w3)
    by (eapply wait_timeout_within; exact E3);
  cbn in H;
  [|destruct (match e3 with NoSuchProcess => true | _ => false end)];
  injection H as <- <-;
  exact (signals_within_trans _ _ _ _ S1 (signals_within_trans _ _ _ _ S2 S3)).
Qed.

Lemma for_each_tree_within : forall (pids : list Z) w0 xs w r w',
  incl xs pids -> incl (procs w) (procs w0) ->
  for_each _terminate_process_tree xs w = (r, w') ->
  signals_within (fun q => exists p, In p pids /\ in_tree (procs w0) p q) w w'.
Proof.
  intros pids w0 xs. induction xs as [|x xs IH]; intros w r w' Hx Hw H.
  - cbn in H. injection H as <- <-. apply signals_within_refl.
  - cbn [for_each] in H. unfold bind in H.
    destruct (_terminate_process_tree x w) as [[u|e] w1] eqn:E;
    assert (S1 : signals_within (fun q => exists p, In p pids /\ in_tree (procs w0) p q) w w1)
      by (eapply signals_within_weaken; [|exact (terminate_process_tree_within x w _ w1 E)];
          intros q Hq; exists x; split; [apply Hx; left; reflexivity | eapply in_tree_incl; [exact Hw | exact Hq]]).
    + apply (signals_within_trans _ _ w1); [exact S1|].
      eapply IH; [| | exact H].
      * intros y Hy. apply Hx. right. exact Hy.
      * destruct S1 as [I _]. intros y Hy. apply Hw, I, Hy.
    + injection H as <- <-. exact S1.
Qed.

(** Whatever [VirtualenvMode.stop] does, no process appears, events are only
    appended, and every process it sends SIGTERM to belongs to the process tree
    (through the [ppid] links of the table it started from) of a pid listed in
    the process-id file. *)
Theorem stop_signals_only_tracked_trees : forall pid_file w r w',
  stop pid_file w = (r, w') ->
  incl (procs w') (procs w) /\
  exists suf, trace w' = (trace w ++ suf)%list /\
  forall q, In (Terminate q) suf ->
  exists lines pids p, pid_file = Some lines /\ parse_pids lines = Some pids /\
                       In p pids /\ in_tree (procs w) p q.
Proof.
  intros pid_file w r w' H.
  change (signals_within (fun q => exists lines pids p, pid_file = Some lines /\
            parse_pids lines = Some pids /\ In p pids /\ in_tree (procs w) p q) w w').
  unfold stop in H.
  destruct pid_file as [lines|].
  2:{ unfold bind in H. destruct (print _ w) as [r1 w1] eqn:E. destruct r1 as [u|e].
      - eapply signals_within_trans; [eapply emit_print_within; exact E|].
        injection H as <- <-. apply signals_within_refl.
      - injection H as <- <-. eapply emit_print_within. exact E. }
  destruct (parse_pids lines) as [pids|] eqn:Hp.
  2:{ injection H as <- <-. apply signals_within_refl. }
  assert (Hprint : forall msg w1 w2 r2, print msg w1 = (r2, w2) -> forall P, signals_within P w1 w2)
    by (intros; eapply emit_print_within; eassumption).
  destruct pids as [|z l].
  { unfold bind in H. destruct (print _ w) as [r1 w1] eqn:E.
    destruct r1; injection H as <- <-;
      [apply (signals_within_trans _ _ w1); [eapply Hprint; exact E | apply signals_within_refl]
      | eapply Hprint; exact E]. }
  apply (signals_within_weaken (fun q => exists p, In p (z :: l) /\ in_tree (procs w) p q)).
  { intros q [p [Hin Ht]]. exists lines, (z :: l), p. tauto. }
  unfold try_except, bind in H.
  destruct (for_each _terminate_process_tree (z :: l) w) as [[u|e] w1] eqn:E;
  assert (S1 : signals_within (fun q => exists p, In p (z :: l) /\ in_tree (procs w) p q) w w1)
    by (eapply (for_each_tree_within (z :: l) w (z :: l)); [intros y Hy; exact Hy | intros y Hy; exact Hy | exact E]).
  - destruct (print _ w1) as [r2 w2] eqn:E2.
    apply (signals_within_trans _ _ w1); [exact S1|].
    destruct r2; [|unfold print, emit in E2; discriminate]. cbn in H. injection H as <- <-. eapply Hprint; exact E2.
  - apply (signals_within_trans _ _ w1); [exact S1|].
    destruct (is_Exception e); [|injection H as <- <-; apply signals_within_refl].
    destruct (print _ w1) as [r2 w2] eqn:E2.
    destruct r2; [|unfold print, emit in E2; discriminate]. cbn in H. injection H as <- <-. eapply Hprint; exact E2.
Qed.

Lemma stop_signals_only_tracked_trees_witness :
  let r := stop (Some pid_lines) marked_proj_world in
  incl (procs (snd r)) (procs marked_proj_world) /\
  exists suf, trace (snd r) = (trace marked_proj_world ++ suf)%list /\
  forall q, In (Terminate q) suf ->
  exists lines pids p, Some pid_lines = Some lines /\ parse_pids lines = Some pids /\
                       In p pids /\ in_tree (procs marked_proj_world) p q.
Proof.
  exact (stop_signals_only_tracked_trees (Some pid_lines) marked_proj_world
           (fst (stop (Some pid_lines) marked_proj_world))
           (snd (stop (Some pid_lines) marked_proj_world))
           ltac:(vm_compute; reflexivity)).
Defined.

(** ** [cli.py]'s [stop] *)

Lemma terminate_process_tree_signals : forall p w, 0 <= p ->
  tree_signalable (procs w) p = true ->
  Cli.terminate_process_tree p w =
  (Ok tt, with_trace w (trace w ++ tree_signals (procs w) p)%list).
Proof.
  intros p w Hp Hs. unfold Cli.terminate_process_tree, try_except, psutil_process, tree_signals.
  unfold tree_signalable in Hs.
  unfold bind at 1 2 3, gets, raise.
  destruct (Z.ltb_spec p 0); [lia|].
  destruct (proc_present (procs w) p) eqn:Hpr; cbn [negb orb] in Hs.
  - pose proof (proj1 (forallb_forall _ _) Hs) as Hs'. clear Hs. rename Hs' into Hs.
    unfold ret, bind at 1.
    rewrite for_each_terminate_present by (intros x Hx; apply Hs; right; exact Hx).
    rewrite terminate_signalable by (apply Hs; left; reflexivity).
    rewrite with_trace_twice. cbn [trace with_trace]. rewrite <- app_assoc. reflexivity.
  - rewrite app_nil_r, with_trace_same. reflexivity.
Qed.

Lemma for_each_terminate_process_tree : forall pids w,
  Forall (fun p => 0 <= p) pids -> forallb (tree_signalable (procs w)) pids = true ->
  for_each Cli.terminate_process_tree pids w =
  (Ok tt, with_trace w (trace w ++ concat (map (tree_signals (procs w)) pids))%list).
Proof.
  induction pids as [|p ps IH]; intros w H Hs; cbn [for_each].
  - cbn. rewrite app_nil_r, with_trace_same. reflexivity.
  - inversion H as [|? ? Hp Hps]; subst. cbn [forallb] in Hs. apply andb_prop in Hs as [Hs1 Hs2].
    unfold bind at 1.
    rewrite terminate_process_tree_signals by assumption.
    rewrite IH by assumption. cbn [procs trace with_trace concat map].
    rewrite with_trace_twice, app_assoc. reflexivity.
Qed.

(** In a marked project whose process-id file lists non-negative pids, each
    either not running or heading a tree of the user's own processes that are
    all still there when signalled, [cli.py]'s [stop] succeeds: for each pid
    in turn it signals the pid's descendants and then the pid (nothing for a
    pid not running), then prints its completion message. *)
Theorem cli_stop_signals_every_tree : forall project_path lines pids w,
  path_exists_in (fs w) (os_path_join project_path ".airflowctl") = true ->
  parse_pids lines = Some pids -> pids <> [] -> Forall (fun p => 0 <= p) pids ->
  forallb (tree_signalable (procs w)) pids = true ->
  Cli.stop project_path (Some lines) w =
  (Ok tt, with_trace w (trace w ++ concat (map (tree_signals (procs w)) pids)
     ++ [Print "All background processes and their entire process trees have been stopped."])%list).
Proof.
  intros project_path lines pids w Hc Hp Hne Hf Hs.
  unfold Cli.stop, airflowctl_project_check, path_exists. unfold bind at 1 2, gets at 1.
  rewrite Hc. unfold ret at 1. rewrite Hp.
  destruct pids as [|z l]; [congruence|].
  unfold try_except. unfold bind at 1.
  rewrite for_each_terminate_process_tree by assumption.
  unfold print, emit. cbn [trace with_trace]. rewrite with_trace_twice, <- app_assoc. reflexivity.
Qed.

Lemma cli_stop_signals_every_tree_witness :
  Cli.stop proj (Some pid_lines) marked_proj_world =
  (Ok tt, with_trace marked_proj_world
            (trace marked_proj_world ++ concat (map (tree_signals (procs marked_proj_world)) [100])
             ++ [Print "All background processes and their entire process trees have been stopped."])%list).
Proof.
  apply (cli_stop_signals_every_tree proj pid_lines [100] marked_proj_world).
  - vm_compute. reflexivity.
  - vm_compute. reflexivity.
  - discriminate.
  - constructor; [lia | constructor].
  - vm_compute. reflexivity.
Defined.

(** ** Log lines *)

(** A log line gives at most one print; when several requested filters
    match, the webserver style wins over the scheduler one, which wins over the
    triggerer one. *)
Theorem log_line_one_print_precedence : forall webserver scheduler triggerer line,
  let evs := log_line_events webserver scheduler triggerer line in
  (length evs <= 1)%nat /\
  ((webserver && py_contains "webserver" (py_lower line))%bool = true ->
     evs = [ConsolePrint (ansi_sub line) (Some "bold cyan")]) /\
  ((webserver && py_contains "webserver" (py_lower line))%bool = false ->
   (scheduler && py_contains "scheduler" (py_lower line))%bool = true ->
     evs = [ConsolePrint (ansi_sub line) (Some "bold magenta")]) /\
  ((webserver && py_contains "webserver" (py_lower line))%bool = false ->
   (scheduler && py_contains "scheduler" (py_lower line))%bool = false ->
   (triggerer && py_contains "triggerer" (py_lower line))%bool = true ->
     evs = [ConsolePrint (ansi_sub line) (Some "bold yellow")]).
Proof.
  intros webserver scheduler triggerer line evs. unfold evs, log_line_events.
  destruct webserver, scheduler, triggerer,
    (py_contains "webserver" (py_lower line)), (py_contains "scheduler" (py_lower line)),
    (py_contains "triggerer" (py_lower line));
    cbn; repeat split; intros; try discriminate; try reflexivity; lia.
Qed.

(** ** [is_airflow_installed] and [install_airflow] *)

Lemma filter_absent : forall l x, path_exists_in l x = false ->
  filter (fun q => negb (String.eqb q x)) l = l.
Proof.
  induction l as [|a l IH]; intros x H; cbn in *; [reflexivity|].
  apply orb_false_elim in H as [Ha Hl]. rewrite String.eqb_sym, Ha. cbn. rewrite IH by exact Hl.
  reflexivity.
Qed.

(** [is_airflow_installed] returns true exactly when [bin/airflow] exists in
    the environment, can be started, and its stripped [airflow version]
    output equals the requested version; an existing [bin/airflow] that
    cannot be started raises [OSError].  It changes the files only when
    [bin/airflow] runs and reports another version, and then only by deleting
    [airflow.db]; the working directory, the directories and the environment
    are left alone. *)
Theorem is_airflow_installed_spec : forall venv_path version project_path w,
  let bin_airflow := os_path_join (os_path_join venv_path "bin") "airflow" in
  let db := os_path_join project_path "airflow.db" in
  let present := path_exists_in (fs w) bin_airflow in
  let starts := match cmd_status w (RunVersion bin_airflow) with NotStarted => false | _ => true end in
  let same := String.eqb (py_strip (airflow_version_out w)) version in
  let res := is_airflow_installed venv_path version project_path w in
  fst res = (if present then (if starts then Ok same else Err OSError) else Ok false) /\
  fs (snd res) =
    (if (present && starts && negb same)%bool then filter (fun q => negb (String.eqb q db)) (fs w)
     else fs w) /\
  cwd (snd res) = cwd w /\ dirs (snd res) = dirs w /\ environ (snd res) = environ w.
Proof.
  intros venv_path version project_path w bin_airflow db present starts same res.
  unfold res, is_airflow_installed, run_airflow_version, path_exists, unlink, print, emit, bind,
    gets, ret, raise.
  cbn -[os_path_join path_exists_in String.append py_strip].
  fold bin_airflow. fold present.
  destruct present; [|repeat split; reflexivity].
  cbn [negb]. unfold starts.
  destruct (cmd_status w (RunVersion bin_airflow)); cbn [andb];
    cbn -[os_path_join path_exists_in String.append py_strip]; try (repeat split; reflexivity).
  all: fold same; destruct same; cbn [negb andb]; [repeat split; reflexivity|].
  all: cbn -[os_path_join path_exists_in String.append py_strip]; fold db.
  all: destruct (path_exists_in (fs w) db) eqn:Hd; repeat split; try reflexivity.
  all: cbn; symmetry; apply filter_absent; exact Hd.
Qed.

(** [install_airflow] either succeeds, or exits with [SystemExit()], or
    raises [ValueError], the last only when the Python version has no major
    and minor part to parse, or raises [OSError], the last only when
    [bin/airflow] cannot be started or the version names an existing path
    that is not a directory the pipeline can run in. *)
Theorem install_airflow_outcomes :
  forall version venv_path python_version project_path extras requirements verbose w,
  let r := fst (install_airflow version venv_path python_version project_path extras
                  requirements verbose w) in
  r = Ok tt \/ r = Err (SystemExit None) \/
  (r = Err ValueError /\ _get_major_minor_version python_version = None) \/
  (r = Err OSError /\
   (cmd_status w (RunVersion (os_path_join (os_path_join venv_path "bin") "airflow")) = NotStarted \/
    (path_exists_in (fs w) (resolve w version) = true /\ can_enter w version = false))).
Proof.
  intros version venv_path python_version project_path extras requirements verbose w r.
  unfold r. clear r.
  destruct (is_airflow_installed_spec venv_path version project_path w) as [Hr [Hfs [Hcwd [Hdirs _]]]].
  destruct (is_airflow_installed venv_path version project_path w) as [r1 w1] eqn:Hi.
  cbn [fst snd] in Hr, Hfs, Hcwd, Hdirs.
  assert (Hsub : forall q, path_exists_in (fs w1) q = true -> path_exists_in (fs w) q = true)
    by (intros q Hq; rewrite Hfs in Hq; destruct (_ && _ && _)%bool;
        [exact (path_exists_in_filter _ _ _ Hq) | exact Hq]).
  assert (Hproceed : r1 = Ok false ->
    let r := fst (install_airflow version venv_path python_version project_path extras
                    requirements verbose w) in
    r = Ok tt \/ r = Err (SystemExit None) \/
    (r = Err ValueError /\ _get_major_minor_version python_version = None) \/
    (r = Err OSError /\
     (cmd_status w (RunVersion (os_path_join (os_path_join venv_path "bin") "airflow")) = NotStarted \/
      (path_exists_in (fs w) (resolve w version) = true /\ can_enter w version = false)))).
  { intros Hr1 r. rewrite Hr1 in Hi. unfold r. clear r.
    assert (Hdir : can_enter w1 version = can_enter w version)
      by (unfold can_enter, resolve, absolute; rewrite Hcwd, Hdirs; reflexivity).
    assert (Hloc : path_exists_in (fs w1) (resolve w1 version) = true ->
                   path_exists_in (fs w) (resolve w version) = true)
      by (intros Hq; apply Hsub in Hq; unfold resolve, absolute in *; rewrite Hcwd in Hq; exact Hq).
    destruct (path_exists_in (fs w1) (os_path_join (os_path_join venv_path "bin") "python")) eqn:Hpy;
      [| right; left; rewrite (install_airflow_invalid_runtime w w1) by assumption; reflexivity].
    destruct (build_install_command (os_path_join (os_path_join venv_path "bin") "python") version
      python_version project_path extras requirements
      (getenv_in (environ w1) "AIRFLOWCTL_CONSTRAINTS") (getenv_in (environ w1) "AIRFLOWCTL_PIP_FLAGS")
      (getenv_in (environ w1) "AIRFLOWCTL_SKIP_CONSTRAINTS")
      (path_exists_in (fs w1) (resolve w1 version))) as [cmd|] eqn:Hc.
    2:{ right; right; left; rewrite (install_airflow_value_error w w1) by assumption.
        split; [reflexivity|].
        destruct (build_install_command_none _ _ _ _ _ _ _ _ _ _ Hc) as [_ [_ Hm]]; exact Hm. }
    destruct (path_exists_in (fs w1) (resolve w1 version) && negb (can_enter w1 version))%bool
      eqn:Hnd.
    - apply andb_prop in Hnd; destruct Hnd as [Hl Hd]; apply negb_true_iff in Hd.
      rewrite Hl in Hc.
      rewrite (install_airflow_not_a_directory w w1 _ _ _ _ _ _ _ cmd) by assumption.
      right; right; right; split; [reflexivity|]; right.
      split; [exact (Hloc Hl) | rewrite <- Hdir; exact Hd].
    - rewrite (install_airflow_runs_pipeline w w1 _ _ _ _ _ _ _ cmd) by
        (first [assumption | intros Hl; rewrite Hl in Hnd; apply negb_false_iff; exact Hnd]).
      cbn [fst]; destruct (Z.eqb (shell_status w1) 0); [left | right; left]; reflexivity. }
  destruct (path_exists_in (fs w) _) eqn:Hbin; [| exact (Hproceed Hr)].
  destruct (cmd_status w _) eqn:Hst.
  3:{ subst r1. right; right; right. unfold install_airflow. unfold bind at 1. rewrite Hi.
      split; [reflexivity | left; reflexivity]. }
  all: destruct (String.eqb _ version) eqn:Hsame; [| exact (Hproceed Hr)].
  all: subst r1; left; unfold install_airflow; unfold bind at 1; rewrite Hi; reflexivity.
Qed.

(** ** What [verify_or_create_venv] returns *)

Lemma path_exists_in_app : forall l1 l2 x,
  path_exists_in (l1 ++ l2) x = (path_exists_in l1 x || path_exists_in l2 x)%bool.
Proof. intros. unfold path_exists_in. apply existsb_app. Qed.

Lemma venv_layout_valid : forall p,
  path_exists_in (venv_layout p) p = true /\
  path_exists_in (venv_layout p) (os_path_join (os_path_join p "bin") "python") = true.
Proof.
  intros p. unfold venv_layout, path_exists_in. cbn [existsb].
  rewrite !String.eqb_refl, !orb_true_r. split; reflexivity.
Qed.

Lemma path_exists_in_rmtree : forall l p,
  path_exists_in (filter (fun q => negb (String.eqb q p || under p q)%bool) l) p = false.
Proof.
  intros l p. unfold path_exists_in. induction l as [|a l IH]; [reflexivity|].
  cbn [filter]. destruct (String.eqb_spec a p) as [->|Hne]; cbn [orb negb]; [exact IH|].
  destruct (under p a); cbn [orb negb]; [exact IH|].
  cbn [existsb]. rewrite IH. destruct (String.eqb_spec p a); [congruence | reflexivity].
Qed.

Lemma absolute_slash : forall w p, starts_with_slash (cwd w) = true ->
  starts_with_slash (absolute w p) = true.
Proof.
  intros w p Hc. unfold absolute. destruct (starts_with_slash p) eqn:E; [exact E|].
  unfold os_path_join. rewrite E. destruct (cwd w) as [|c r]; [discriminate|].
  destruct (String.eqb (String c r) "" || ends_with_slash (String c r))%bool; exact Hc.
Qed.

(** Whenever [verify_or_create_venv] returns a path, the path and its
    [bin/python] exist afterwards (the working directory being absolute). *)
Theorem verify_or_create_venv_valid : forall venv_path recreate python_version w q w',
  starts_with_slash (cwd w) = true ->
  verify_or_create_venv venv_path recreate python_version w = (Ok q, w') ->
  path_exists_in (fs w') q = true /\
  path_exists_in (fs w') (os_path_join (os_path_join q "bin") "python") = true.
Proof.
  intros venv_path recreate python_version w q w' Hc H.
  unfold verify_or_create_venv, create_virtualenv_with_specific_python_version, pyenv_install,
    rmtree, venv_create, run_venv_clear, run_checked, print, emit, path_exists, bind, gets, ret,
    raise in H.
  cbn -[os_path_join path_exists_in String.append absolute venv_layout under] in H.
  pose proof (absolute_slash w venv_path Hc) as Hs.
  set (p := absolute w venv_path) in H, Hs. clearbody p.
  unfold absolute in H. destruct (starts_with_slash p); [|discriminate].
  repeat (first [ match type of H with context [if ?b then _ else _] => destruct b eqn:? end
                | match type of H with
                  | context [match ?x with Exit0 => _ | ExitNonzero => _ | NotStarted => _ end] =>
                      destruct x eqn:?
                  end
                | progress cbn -[os_path_join path_exists_in String.append venv_layout under] in H ]).
  all: try discriminate.
  all: injection H as <- <-.
  all: cbn [fs host_python pyenv_on_path pyenv_install_ok with_trace with_fs] in *.
  all: rewrite ?path_exists_in_app in *.
  all: destruct (venv_layout_valid p) as [A B]; rewrite ?A, ?B in *; cbn [orb andb negb] in *.
  all: try discriminate; try (split; reflexivity).
  all: try (rewrite path_exists_in_rmtree in *; cbn [andb negb] in *; discriminate).
  all: try (split; apply existsb_exists;
     [ exists p; split; [left; reflexivity | apply String.eqb_refl]
     | exists (os_path_join (os_path_join p "bin") "python");
       split; [right; left; reflexivity | apply String.eqb_refl] ]).
  all: destruct (path_exists_in (fs w) p), (path_exists_in (fs w) (os_path_join (os_path_join p "bin") "python"));
    cbn [andb negb] in *; try discriminate; split; reflexivity.
Qed.

Lemma verify_or_create_venv_valid_witness :
  let w' := snd (verify_or_create_venv ".venv" false "3.11.4" (mk_world [proj] [] "" 0)) in
  path_exists_in (fs w') venv_dir = true /\
  path_exists_in (fs w') (os_path_join (os_path_join venv_dir "bin") "python") = true.
Proof.
  exact (verify_or_create_venv_valid ".venv" false "3.11.4" (mk_world [proj] [] "" 0) venv_dir
           (snd (verify_or_create_venv ".venv" false "3.11.4" (mk_world [proj] [] "" 0)))
           ltac:(reflexivity) ltac:(vm_compute; reflexivity)).
Defined.

(** With [recreate] on an existing environment, a successful
    [verify_or_create_venv] leaves under the returned path only the files of
    a fresh environment, and keeps every file outside it. *)
Theorem verify_or_create_venv_recreate_fresh : forall venv_path python_version w q w',
  starts_with_slash (cwd w) = true ->
  path_exists_in (fs w) (absolute w venv_path) = true ->
  verify_or_create_venv venv_path true python_version w = (Ok q, w') ->
  (forall f, In f (fs w') -> (String.eqb f q || under q f)%bool = true -> In f (venv_layout q)) /\
  (forall f, In f (fs w) -> (String.eqb f q || under q f)%bool = false -> In f (fs w')).
Proof.
  intros venv_path python_version w q w' Hc Hex H.
  unfold verify_or_create_venv, create_virtualenv_with_specific_python_version, pyenv_install,
    rmtree, venv_create, run_venv_clear, run_checked, print, emit, path_exists, bind, gets, ret,
    raise in H.
  cbn -[os_path_join path_exists_in String.append absolute venv_layout under] in H.
  pose proof (absolute_slash w venv_path Hc) as Hs.
  set (p := absolute w venv_path) in H, Hs, Hex. clearbody p.
  rewrite Hex in H. cbn [andb] in H.
  unfold absolute in H. destruct (starts_with_slash p); [|discriminate].
  repeat (first [ match type of H with context [if ?b then _ else _] => destruct b eqn:? end
                | match type of H with
                  | context [match ?x with Exit0 => _ | ExitNonzero => _ | NotStarted => _ end] =>
                      destruct x eqn:?
                  end
                | progress cbn -[os_path_join path_exists_in String.append venv_layout under] in H ]).
  all: try discriminate.
  all: injection H as <- <-.
  all: cbn [fs host_python pyenv_on_path pyenv_install_ok with_trace with_fs] in *.
  all: try (rewrite path_exists_in_rmtree in *; cbn [andb negb] in *; discriminate).
  all: rewrite ?path_exists_in_app in *.
  all: destruct (venv_layout_valid p) as [A B]; rewrite ?A, ?B in *; cbn [orb andb negb] in *.
  all: try discriminate.
  all: unfold venv_layout in *; cbn [app] in *.
  all: split; intros f Hf Hu.
  all: cbn [In] in *.
  all: repeat (destruct Hf as [<-|Hf]; [intuition auto|]).
  all: repeat (rewrite filter_In in Hf; destruct Hf as [Hf Hn]; rewrite Hu in Hn; discriminate Hn).
  all: repeat right; repeat (apply filter_In; split; [|rewrite Hu; reflexivity]); exact Hf.
Qed.

Lemma verify_or_create_venv_recreate_fresh_witness :
  let w := mk_world old_venv_files [] "" 0 in
  let w' := snd (verify_or_create_venv ".venv" true "3.11.4" w) in
  (forall f, In f (fs w') -> (String.eqb f venv_dir || under venv_dir f)%bool = true ->
             In f (venv_layout venv_dir)) /\
  (forall f, In f (fs w) -> (String.eqb f venv_dir || under venv_dir f)%bool = false ->
             In f (fs w')).
Proof.
  exact (verify_or_create_venv_recreate_fresh ".venv" "3.11.4" (mk_world old_venv_files [] "" 0)
           venv_dir (snd (verify_or_create_venv ".venv" true "3.11.4" (mk_world old_venv_files [] "" 0)))
           ltac:(reflexivity) ltac:(vm_compute; reflexivity) ltac:(vm_compute; reflexivity)).
Defined.

(** ** [utils/project.py] *)

Lemma prefix_app_l : forall n u v, String.prefix n u = true -> String.prefix n (u ++ v) = true.
Proof.
  induction n as [|a n IH]; intros u v H; [destruct (u ++ v); reflexivity|].
  destruct u as [|b u]; [discriminate|]. cbn in *.
  destruct (ascii_dec a b); [apply IH; exact H | discriminate].
Qed.

Lemma py_contains_cons : forall n a s,
  py_contains n (String a s) = if String.prefix n (String a s) then true else py_contains n s.
Proof. reflexivity. Qed.

Lemma py_contains_app_l : forall n s t, py_contains n s = true -> py_contains n (s ++ t) = true.
Proof.
  intros n s t. induction s as [|a s IH]; intros H.
  - destruct n as [|c n]; [destruct t; reflexivity | cbn in H; discriminate H].
  - rewrite py_contains_cons in H. change (String a s ++ t) with (String a (s ++ t)).
    rewrite py_contains_cons. destruct (String.prefix n (String a s)) eqn:E.
    + rewrite (prefix_app_l n (String a s) t E : String.prefix n (String a (s ++ t)) = true). reflexivity.
    + destruct (String.prefix n (String a (s ++ t))); [reflexivity | exact (IH H)].
Qed.

Lemma prefix_refl : forall n, String.prefix n n = true.
Proof. induction n as [|a n IH]; cbn; [reflexivity|]. destruct (ascii_dec a a); [exact IH | congruence]. Qed.

Lemma py_contains_suffix : forall n s, py_contains n (s ++ n) = true.
Proof.
  intros n s. induction s as [|a s IH].
  - cbn. destruct n; cbn; [reflexivity|]. rewrite (prefix_refl (String a n)) at 1. reflexivity.
  - change (String a s ++ n) with (String a (s ++ n)). rewrite py_contains_cons.
    destruct (String.prefix n (String a (s ++ n))); [reflexivity | exact IH].
Qed.

Lemma prefix_cross : forall u n x v,
  String.prefix n (u ++ String x v) = true -> String.prefix n u = false ->
  In x (list_ascii_of_string n).
Proof.
  induction u as [|b u IH]; intros n x v H1 H2.
  - destruct n as [|c n]; [discriminate H2|]. cbn in H1.
    destruct (ascii_dec c x) as [->|]; [left; reflexivity | discriminate H1].
  - destruct n as [|c n]; [discriminate H2|]. cbn in H1, H2.
    destruct (ascii_dec c b); [|discriminate H1]. right. exact (IH n x v H1 H2).
Qed.

Lemma py_contains_app_sep : forall n s x t,
  ~ In x (list_ascii_of_string n) -> py_contains n s = false -> py_contains n t = false ->
  py_contains n (s ++ String x t) = false.
Proof.
  intros n s x t Hx. induction s as [|a s IH]; intros Hs Ht.
  - destruct n as [|c n]; [discriminate Hs|].
    change ("" ++ String x t) with (String x t). rewrite py_contains_cons.
    destruct (String.prefix (String c n) (String x t)) eqn:E; [|exact Ht].
    exfalso. apply Hx. exact (prefix_cross "" (String c n) x t E eq_refl).
  - rewrite py_contains_cons in Hs.
    destruct (String.prefix n (String a s)) eqn:E; [discriminate Hs|].
    change (String a s ++ String x t) with (String a (s ++ String x t)).
    rewrite py_contains_cons.
    destruct (String.prefix n (String a (s ++ String x t))) eqn:E2.
    + exfalso. apply Hx. exact (prefix_cross (String a s) n x t E2 E).
    + exact (IH Hs Ht).
Qed.

Lemma update_ignore_contents_shape : forall c,
  py_contains ".venev" c = false ->
  exists c2, py_contains ".venev" c2 = false /\
             update_ignore_contents c = c2 ++ NL ++ ".venv".
Proof.
  intros c Hc. unfold update_ignore_contents.
  assert (Hnl : forall s, ~ In (ascii_of_nat 10) (list_ascii_of_string s) ->
                 py_contains ".venev" s = false ->
                 forall c0, py_contains ".venev" c0 = false ->
                 py_contains ".venev" (c0 ++ NL ++ s) = false).
  { intros s _ Hs c0 H0. apply py_contains_app_sep; [cbn; intuition discriminate | exact H0 | exact Hs]. }
  destruct (py_contains "airflow.db" c); cbn [negb];
    match goal with |- context [py_contains "airflow.cfg" ?s] => destruct (py_contains "airflow.cfg" s) end;
    cbn [negb];
    match goal with |- context [py_contains ".venev" ?s] =>
      assert (Hs : py_contains ".venev" s = false)
        by (repeat (first [exact Hc | reflexivity | apply Hnl | cbn; intuition discriminate]))
    end;
    rewrite Hs; cbn [negb]; eexists; exact (conj Hs eq_refl).
Qed.

Lemma py_contains_line : forall n s, py_contains n (s ++ NL ++ n) = true.
Proof. intros n s. rewrite <- str_append_assoc. apply py_contains_suffix. Qed.

(** After the ignore-file update, the contents mention [airflow.db] and
    [airflow.cfg]. *)
Lemma update_ignore_contents_lists : forall c,
  py_contains "airflow.db" (update_ignore_contents c) = true /\
  py_contains "airflow.cfg" (update_ignore_contents c) = true.
Proof.
  intros c. unfold update_ignore_contents.
  destruct (py_contains "airflow.db" c) eqn:Edb; cbn [negb];
    match goal with |- context [py_contains "airflow.cfg" ?s] =>
      destruct (py_contains "airflow.cfg" s) eqn:Ecfg end;
    cbn [negb];
    destruct (negb (py_contains ".venev" _)); split;
    repeat (first [assumption | apply py_contains_line | apply py_contains_app_l]).
Qed.

(** The ignore-file update is not idempotent: it tests for [.venev] but
    appends [.venv], so on contents without [.venev] every further update
    appends one more [.venv] line. *)
Theorem update_ignore_contents_appends_venv_again : forall c,
  py_contains ".venev" c = false ->
  update_ignore_contents (update_ignore_contents c) = update_ignore_contents c ++ NL ++ ".venv".
Proof.
  intros c Hc.
  destruct (update_ignore_contents_lists c) as [Hdb Hcfg].
  destruct (update_ignore_contents_shape c Hc) as [c2 [H2 Hu]].
  set (u := update_ignore_contents c) in *.
  assert (Hv : py_contains ".venev" u = false).
  { rewrite Hu. apply py_contains_app_sep; [cbn; intuition discriminate | exact H2 | reflexivity]. }
  unfold update_ignore_contents at 1. rewrite Hdb. cbn [negb]. rewrite Hcfg. cbn [negb].
  rewrite Hv. reflexivity.
Qed.

Lemma update_ignore_contents_appends_venv_again_witness :
  update_ignore_contents (update_ignore_contents "__pycache__") =
  update_ignore_contents "__pycache__" ++ NL ++ ".venv".
Proof. apply update_ignore_contents_appends_venv_again. vm_compute. reflexivity. Defined.
